(** * print-nanny-dataflow: the windowed health-analytics core

    A shallow embedding of
    - [print_nanny_dataflow/metrics/area_of_interest.py]
      ([calc_percent_intersection], [filter_box_annotations]) and
    - [print_nanny_dataflow/transforms/health.py]
      ([health_score_trend_polynomial_v1], [ExplodeWindowedHealthRecord],
      [SortWindowedHealthDataframe], [CreateVideoRenderMessage],
      [MonitorHealthStateful]).

    Number model.  Scores, weights and box coordinates are Python/numpy
    floats in the source; here they are exact rationals ([Qc], canonical
    fractions, so that [=] is the equality of numbers).  Rounding in the
    last place is therefore not modelled, and neither is overflow.
    Underflow is, where it changes what the code does: the areas of
    [calc_percent_intersection] are compared with zero before a
    division, so they are computed by [Py.mul], which returns 0 for a
    product too small for a float64.  Statements that need an area
    other than zero ask for it with a margin ([FilterSpec.has_area])
    that covers the rounding of the subtractions, and for coordinates
    in the unit square ([FilterSpec.normalized]), where nothing
    overflows.  Everything else (control flow, raised exceptions,
    operator precedence, order of evaluation) follows the source.
    Timestamps, class ids and counters are [Z]. *)

From Stdlib Require Import QArith Qcanon.
From stdpp Require Import base numbers list sorting strings gmap.

Local Open Scope Z_scope.
Local Open Scope Qc_scope.

(** ** Python outcomes *)

Module Py.

(** The exception classes that the modelled code can meet.
    [LinAlgError] is numpy's, a subclass of [ValueError]. *)
Inductive exn : Set :=
| TypeError | ValueError | LinAlgError | ZeroDivisionError
| KeyError | IndexError.

(** [isinstance(e, ValueError)], what [except ValueError] tests. *)
Definition is_ValueError (e : exn) : bool :=
  match e with
  | ValueError | LinAlgError => true
  | _ => false
  end.

Inductive result (A : Type) : Type :=
| Ok (a : A)
| Raise (e : exn).
Arguments Ok {A} a.
Arguments Raise {A} e.

Definition bind {A B} (m : result A) (k : A -> result B) : result B :=
  match m with
  | Ok a => k a
  | Raise e => Raise e
  end.

(** A [for] loop (or comprehension) whose body may raise. *)
Fixpoint for_each {A B} (f : A -> result B) (l : list A) : result (list B) :=
  match l with
  | [] => Ok []
  | x :: l' =>
      bind (f x) (fun y => bind (for_each f l') (fun ys => Ok (y :: ys)))
  end.

(** Python's two-argument [max] and [min]: the first argument wins ties. *)
Definition max (a b : Qc) : Qc := if bool_decide (a < b) then b else a.
Definition min (a b : Qc) : Qc := if bool_decide (b < a) then b else a.

(** Float division [a / b]. *)
Definition div (a b : Qc) : result Qc :=
  if bool_decide (b = 0) then Raise ZeroDivisionError else Ok (a / b).

(** float64 has no value between 0 and 2^-1074: a product of magnitude
    at most [tiny] = 2^-1075 comes out as 0.0. *)
Definition tiny : Qc := Q2Qc (1 # (2 ^ 1075)).

(** Float multiplication [a * b], with its underflow to zero. *)
Definition mul (a b : Qc) : Qc :=
  if bool_decide (- tiny <= a * b) && bool_decide (a * b <= tiny)
  then 0
  else a * b.

End Py.

Import Py.

Notation "x <- m ;; k" := (Py.bind m (fun x => k))
  (at level 100, m at next level, right associativity, only parsing).

(** ** numpy values, as far as [filter_box_annotations] uses them *)

Module Np.

Inductive value : Type :=
| Float (x : Qc)               (* a Python float *)
| FloatArray (l : list Qc)     (* ndarray, dtype float64 *)
| BoolArray (l : list bool).   (* ndarray, dtype bool *)

(** [a & b].  The ufunc [bitwise_and] has loops for booleans and
    integers only: a float operand on either side is a [TypeError]. *)
Definition bitwise_and (a b : value) : result value :=
  match a, b with
  | BoolArray x, BoolArray y =>
      if bool_decide (length x = length y)
      then Ok (BoolArray (zip_with andb x y))
      else Raise ValueError
  | _, _ => Raise TypeError
  end.

(** Elementwise comparison with broadcasting of a scalar operand. *)
Definition compare (op : Qc -> Qc -> bool) (a b : value) : result value :=
  match a, b with
  | Float x, Float y => Ok (BoolArray [op x y])
  | Float x, FloatArray l => Ok (BoolArray (map (op x) l))
  | FloatArray l, Float y => Ok (BoolArray (map (fun x => op x y) l))
  | FloatArray l1, FloatArray l2 =>
      if bool_decide (length l1 = length l2)
      then Ok (BoolArray (zip_with op l1 l2))
      else Raise ValueError
  | _, _ => Raise TypeError
  end.

Definition ltb (x y : Qc) : bool := bool_decide (x < y).
Definition gtb (x y : Qc) : bool := bool_decide (y < x).

Definition less := compare ltb.
Definition greater := compare gtb.

(** [bool(a)], needed by the [and] hidden in a chained comparison. *)
Definition truth (a : value) : result bool :=
  match a with
  | Float x => Ok (negb (bool_decide (x = 0)))
  | BoolArray [] | FloatArray [] => Ok false
  | BoolArray [b] => Ok b
  | FloatArray [x] => Ok (negb (bool_decide (x = 0)))
  | _ => Raise ValueError
  end.

(** The chained comparison [a < b > c]: [b] is evaluated once, and the
    value is [(a < b) and (b > c)]. *)
Definition chained_less_greater (a : value) (b : result value) (c : value)
  : result value :=
  b' <- b ;;
  first <- less a b' ;;
  t <- truth first ;;
  if t then greater b' c else Ok first.

(** The entries of [arr] at the positions where [mask] holds. *)
Definition select {A} (arr : list A) (mask : list bool) : list A :=
  map fst (filter (fun p => snd p = true) (zip arr mask)).

(** [arr[mask]] with a boolean mask: the lengths have to agree. *)
Definition mask_select {A} (arr : list A) (mask : list bool) : result (list A) :=
  if bool_decide (length arr = length mask)
  then Ok (select arr mask)
  else Raise IndexError.

(** [np.count_nonzero(mask)]. *)
Definition count_nonzero (mask : list bool) : nat :=
  length (filter (fun b => b = true) mask).

End Np.

(** ** [metrics/area_of_interest.py] *)

Module AreaOfInterest.

(** A four-tuple of coordinates, indexed [0..3] in the source: a
    detection box or the calibrated area of interest. *)
Record Coords : Type := mkCoords { i0 : Qc; i1 : Qc; i2 : Qc; i3 : Qc }.

Record DeviceCalibration : Type := { coordinates : Coords }.

Record BoxAnnotations : Type := mkBoxAnnotations {
  num_detections : Z;
  detection_scores : list Qc;
  detection_boxes : list Coords;
  detection_classes : list Z;
  health_weights : list Qc
}.

(** The body of the loop of [calc_percent_intersection], for one box. *)
Definition percent_intersection_of (aoi_coords box : Coords) : result Qc :=
  let x_left := Py.max (i0 aoi_coords) (i0 box) in
  let y_top := Py.max (i1 aoi_coords) (i1 box) in
  let x_right := Py.min (i2 aoi_coords) (i2 box) in
  let y_bottom := Py.min (i3 aoi_coords) (i3 box) in
  if bool_decide (x_right < x_left) || bool_decide (y_bottom < y_top)
  then Ok 0
  else
    let intersection_area := Py.mul (x_right - x_left) (y_bottom - y_top) in
    let box_area := Py.mul (i2 box - i0 box) (i3 box - i1 box) in
    ratio <- Py.div intersection_area box_area ;;
    if bool_decide (ratio = 1) then Ok 1
    else Py.div intersection_area box_area.

Definition calc_percent_intersection
    (detection_boxes : list Coords) (aoi_coords : Coords)
  : result (list Qc) :=
  Py.for_each (percent_intersection_of aoi_coords) detection_boxes.

Section Filter.

(** [CATEGORY_INDEX] lives in [coders/types.py]; only its
    ["health_weight"] column is used here: class id to weight. *)
Variable CATEGORY_INDEX : gmap Z Qc.

Definition health_weight_of (i : Z) : result Qc :=
  match CATEGORY_INDEX !! i with
  | Some w => Ok w
  | None => Raise KeyError
  end.

Definition as_mask (v : Np.value) : result (list bool) :=
  match v with
  | Np.BoolArray m => Ok m
  | _ => Raise IndexError
  end.

(** Defaults of the source: [min_calibration_area_overlap=0.75],
    [min_score_threshold=0.66]. *)
Definition default_min_calibration_area_overlap : Qc := Q2Qc (75 # 100).
Definition default_min_score_threshold : Qc := Q2Qc (66 # 100).

(** [&] binds tighter than [<] and [>], so the mask of the calibrated
    branch reads
    [percent_intersection < (min_calibration_area_overlap & detection_scores)
       > min_score_threshold]. *)
Definition filter_box_annotations
    (element : BoxAnnotations)
    (calibration : option DeviceCalibration)
    (min_calibration_area_overlap min_score_threshold : Qc)
  : result BoxAnnotations :=
  let scores := Np.FloatArray (detection_scores element) in
  ignored_mask <-
    match calibration with
    | Some c =>
        percent_intersection <-
          calc_percent_intersection (detection_boxes element) (coordinates c) ;;
        Np.chained_less_greater
          (Np.FloatArray percent_intersection)
          (Np.bitwise_and (Np.Float min_calibration_area_overlap) scores)
          (Np.Float min_score_threshold)
    | None => Np.greater scores (Np.Float min_score_threshold)
    end ;;
  mask <- as_mask ignored_mask ;;
  filtered_detection_boxes <- Np.mask_select (detection_boxes element) mask ;;
  filtered_detection_scores <- Np.mask_select (detection_scores element) mask ;;
  filtered_detection_classes <- Np.mask_select (detection_classes element) mask ;;
  let n := Z.of_nat (Np.count_nonzero mask) in
  weights <- Py.for_each health_weight_of filtered_detection_classes ;;
  Ok {| num_detections := n;
        detection_scores := filtered_detection_scores;
        detection_boxes := filtered_detection_boxes;
        detection_classes := filtered_detection_classes;
        health_weights := weights |}.

End Filter.

End AreaOfInterest.

(** ** pandas Series, as far as [health_score_trend_polynomial_v1] uses them *)

Module Pd.

(** A Series of floats indexed by timestamp: (label, value) pairs. *)
Definition Series : Type := list (Z * Qc).

Definition index (s : Series) : list Z := map fst s.
Definition values (s : Series) : list Qc := map snd s.

(** The distinct labels of [l], ascending: the index of a [groupby]
    result ([sort=True]) and of an outer alignment. *)
Definition sorted_unique (l : list Z) : list Z :=
  merge_sort Z.le (remove_dups l).

Definition group_values (rows : list (Z * Qc)) (k : Z) : list Qc :=
  map snd (filter (fun r => fst r = k) rows).

(** Reduction of a group with [max] or [min].  A group is never empty;
    the empty case is there for totality only. *)
Definition reduce (f : Qc -> Qc -> Qc) (l : list Qc) : Qc :=
  match l with
  | [] => 0
  | x :: l' => foldl f x l'
  end.

(** [rows.groupby(["ts"])[col].agg(f)] for [f] one of [max], [min]. *)
Definition groupby_agg (f : Qc -> Qc -> Qc) (rows : list (Z * Qc)) : Series :=
  map (fun k => (k, reduce f (group_values rows k)))
      (sorted_unique (map fst rows)).

Fixpoint get (s : Series) (k : Z) : option Qc :=
  match s with
  | [] => None
  | (k', v) :: s' => if bool_decide (k' = k) then Some v else get s' k
  end.

(** [s1.add(s2, fill_value=fill)]: both sides are aligned on the union
    of their indexes, a value missing on one side is [fill]. *)
Definition add (s1 s2 : Series) (fill_value : Qc) : Series :=
  map (fun k => (k, default fill_value (get s1 k) + default fill_value (get s2 k)))
      (sorted_unique (index s1 ++ index s2)).

Fixpoint running_sum (acc : Qc) (l : list Qc) : list Qc :=
  match l with
  | [] => []
  | x :: l' => (acc + x) :: running_sum (acc + x) l'
  end.

(** [s.cumsum()]: same index, running totals. *)
Definition cumsum (s : Series) : Series :=
  zip (index s) (running_sum 0 (values s)).

End Pd.

(** ** [os.path.join] (posix) *)

Module Os.

Definition endswith_sep (s : string) : bool :=
  match String.get (String.length s - 1) s with
  | Some c => bool_decide (c = Ascii.Ascii true true true true false true false false)
  | None => false
  end.

Definition join2 (path b : string) : string :=
  if String.prefix "/" b then b
  else if bool_decide (path = EmptyString) || endswith_sep path
       then String.append path b
       else String.append path (String.append "/" b).

Definition path_join (a : string) (p : list string) : string :=
  foldl join2 a p.

End Os.

(** ** [transforms/health.py] *)

Module Health.

Record Metadata : Type := mkMetadata {
  client_version : string;
  md_print_session : string;
  user_id : Z;
  octoprint_device_id : Z;
  cloudiot_device_id : string;
  window_start : option Z;
  window_end : option Z
}.

Record NestedTelemetryEvent : Type := mkEvent {
  ev_client_version : string;
  ev_print_session : string;
  ev_user_id : Z;
  ev_octoprint_device_id : Z;
  ev_cloudiot_device_id : string;
  ev_ts : Z;
  ev_num_detections : Z;
  ev_detection_scores : list Qc;
  ev_detection_classes : list Z
}.

Record WindowedHealthRecord : Type := mkRecord {
  metadata : Metadata;
  ts : Z;
  print_session : string;
  detection_score : Qc;
  detection_class : Z;
  health_weight : Qc;
  health_score : Qc
}.

(** [beam.DoFn.WindowParam], already converted with [int(...)]. *)
Record Window : Type := mkWindow { w_start : Z; w_end : Z }.

(** [beam.DoFn.PaneInfoParam]. *)
Record PaneInfo : Type := mkPane { is_first : bool; is_last : bool; pane_index : Z }.

Inductive log_record : Type :=
| LogInfo (msg : string) (window_start window_end : Z)
| LogPane (pane_info : PaneInfo) (window : Window) (failures : Z)
| LogError (e : Py.exn) (msg : string).

(** What one call of a generator-style [process] does: the elements it
    yields, what it logs, and the exception that ends it, if any. *)
Record outcome (A : Type) : Type := mkOutcome {
  emitted : list A;
  logged : list log_record;
  raised : option Py.exn
}.
Arguments mkOutcome {A} _ _ _.
Arguments emitted {A} _.
Arguments logged {A} _.
Arguments raised {A} _.

Definition raising {A} (e : Py.exn) : outcome A := mkOutcome [] [] (Some e).

(** [l[i]] for a Python list and [i >= 0]. *)
Definition getitem {A} (l : list A) (i : nat) : result A :=
  match l !! i with
  | Some x => Ok x
  | None => Raise IndexError
  end.

(** *** ExplodeWindowedHealthRecord *)

Module ExplodeWindowedHealthRecord.
Section WithTable.

Variable CATEGORY_INDEX : gmap Z Qc.

Definition explode_one (metadata : Metadata) (element : NestedTelemetryEvent)
  (i : nat) : result WindowedHealthRecord :=
score <- getitem (ev_detection_scores element) i ;;
class <- getitem (ev_detection_classes element) i ;;
weight <- AreaOfInterest.health_weight_of CATEGORY_INDEX class ;;
Ok {| metadata := metadata;
      ts := ev_ts element;
      print_session := ev_print_session element;
      detection_score := score;
      detection_class := class;
      health_weight := weight;
      health_score := weight * score |}.

Definition process (element : NestedTelemetryEvent) (window : Window)
: result (list WindowedHealthRecord) :=
let metadata :=
  {| client_version := ev_client_version element;
     md_print_session := ev_print_session element;
     user_id := ev_user_id element;
     octoprint_device_id := ev_octoprint_device_id element;
     cloudiot_device_id := ev_cloudiot_device_id element;
     window_start := Some (w_start window);
     window_end := Some (w_end window) |} in
Py.for_each (explode_one metadata element)
            (seq 0 (Z.to_nat (ev_num_detections element))).

End WithTable.
End ExplodeWindowedHealthRecord.

(** *** numpy's polynomial class

    [np.polynomial.polynomial.Polynomial] is a library class; the
    transforms use its [fit] constructor and four accessors.  [fit]
    raises for inputs it rejects ([ValueError] and its subclass
    [LinAlgError] among them).  Which inputs it rejects, and with
    which class of exception, is the library's matter and is left open
    here: statements about a failing fit name the class they need. *)
Class PolynomialApi : Type := {
  Polynomial : Type;
  fit : list Z -> list Qc -> Z -> result Polynomial;
  coef : Polynomial -> list Qc;
  domain : Polynomial -> list Qc;
  roots : Polynomial -> list Qc;
  degree : Polynomial -> Z
}.

Section Trend.

Context `{PolynomialApi}.

(** The rows of a frame as (ts, health_score) pairs. *)
Definition ts_health_score (df : list WindowedHealthRecord) : list (Z * Qc) :=
  map (fun r => (ts r, health_score r)) df.

(** The Series [xy] of [health_score_trend_polynomial_v1]. *)
Definition xy_series (df : list WindowedHealthRecord) : Pd.Series :=
  Pd.cumsum
    (Pd.add
       (Pd.groupby_agg Py.max
          (ts_health_score (filter (fun r => 0 < health_weight r) df)))
       (Pd.groupby_agg Py.min
          (ts_health_score (filter (fun r => health_weight r < 0) df)))
       0).

Definition health_score_trend_polynomial_v1
    (df : list WindowedHealthRecord) (degree : Z)
  : result (Pd.Series * Polynomial) :=
  let xy := xy_series df in
  trend <- fit (Pd.index xy) (Pd.values xy) degree ;;
  Ok (xy, trend).

End Trend.

Record NestedWindowedHealthTrend `{PolynomialApi} : Type := mkTrend {
  t_print_session : string;
  poly_coef : list Qc;
  poly_domain : list Qc;
  poly_roots : list Qc;
  poly_degree : Z;
  t_cumsum : list Qc;
  t_metadata : Metadata;
  t_health_score : list Qc;
  t_health_weight : list Qc;
  t_detection_class : list Z;
  t_detection_score : list Qc
}.

(** *** SortWindowedHealthDataframe *)

Module SortWindowedHealthDataframe.

(** The attributes of the DoFn instance. *)
Record t : Type := mk { polyfit_degree : Z; warmup : Z }.

(** [__init__(self, warmup=3, polyfit_degree=1)]: the body stores the
    literal [1], not the argument. *)
Definition __init__ (warmup polyfit_degree : Z) : t :=
  {| polyfit_degree := 1; warmup := warmup |}.

Definition default_warmup : Z := 3.
Definition default_polyfit_degree : Z := 1.

Definition ts_le (a b : WindowedHealthRecord) : Prop := (ts a <= ts b)%Z.

#[global] Instance ts_le_dec : RelDecision ts_le :=
  fun a b => decide (ts a <= ts b)%Z.

(** [pd.DataFrame(data=records).sort_values("ts").set_index(["ts"])].
    A frame built from no rows has no column ["ts"], and sorting it
    by that label is a [KeyError].  Rows that tie on ["ts"] stay in the
    order of their arrival, as under numpy's sort of a short array (an
    insertion sort); the tie order is used where a statement says so. *)
Definition sorted_frame (records : list WindowedHealthRecord)
  : result (list WindowedHealthRecord) :=
  match records with
  | [] => Raise KeyError
  | _ => Ok (merge_sort ts_le records)
  end.

Definition fatal_msg : string :=
  "Fatal error in SortWindowedHealthDataframe transform".
Definition emitting_msg : string :=
  "SortWindowedHealthDataframe emitting NestedWindowedHealthTrend".

Section Process.

Context `{PolynomialApi}.

Definition process (self : t)
    (keyed_elements : string * list WindowedHealthRecord)
    (window : Window)
  : outcome (string * NestedWindowedHealthTrend) :=
  let '(key, windowed_health_records) := keyed_elements in
  let window_start := w_start window in
  let window_end := w_end window in
  match sorted_frame windowed_health_records with
  | Raise e => raising e
  | Ok df =>
      if bool_decide (Z.of_nat (length df) < warmup self)%Z
      then mkOutcome [] [] None
      else
        match health_score_trend_polynomial_v1 df (polyfit_degree self) with
        | Raise e =>
            if Py.is_ValueError e
            then mkOutcome [] [LogError e fatal_msg] None
            else raising e
        | Ok (cumsum, trend) =>
            match getitem df 0 with
            | Raise e => raising e
            | Ok first =>
                mkOutcome
                  [(key,
                    {| t_print_session := key;
                       poly_coef := coef trend;
                       poly_domain := domain trend;
                       poly_roots := roots trend;
                       poly_degree := degree trend;
                       t_cumsum := Pd.values cumsum;
                       t_metadata := metadata first;
                       t_health_score := map health_score df;
                       t_health_weight := map health_weight df;
                       t_detection_class := map detection_class df;
                       t_detection_score := map detection_score df |})]
                  [LogInfo emitting_msg window_start window_end]
                  None
            end
        end
  end.

(** One lane of the runner: the DoFn instance lives across the
    firings it is handed, and so does the log. *)
Record lane : Type := mkLane { dofn : t; lane_log : list log_record }.

Definition firing : Type := (string * list WindowedHealthRecord) * Window.

Definition fire (st : lane) (f : firing)
  : lane * outcome (string * NestedWindowedHealthTrend) :=
  let o := process (dofn st) (fst f) (snd f) in
  (mkLane (dofn st) (lane_log st ++ logged o), o).


End Process.

End SortWindowedHealthDataframe.

(** *** CreateVideoRenderMessage *)

Inductive AlertEventTypeEnum : Set := video_done.

Record RenderVideoMessage : Type := mkMsg {
  msg_print_session : string;
  msg_metadata : Metadata;
  event_type : AlertEventTypeEnum;
  gcs_input : string;
  gcs_output : string;
  cdn_output : string;
  cdn_relative : string;
  msg_bucket : string
}.

Module CreateVideoRenderMessage.

Record t : Type := __init__ {
  in_base_path : string;
  out_base_path : string;
  cdn_base_path : string;
  cdn_upload_path : string;
  bucket : string
}.

(** [datestamp] is [datetime.now().strftime("%Y/%m/%d")], read from the
    clock by the source and an argument here.  The yielded element is
    the message before [to_bytes()]. *)
Definition process (self : t) (datestamp : string)
    (element : string * list NestedTelemetryEvent)
    (window : Window) (pane_info : PaneInfo)
  : outcome RenderVideoMessage :=
  let '(key, values) := element in
  let gcs_input := Os.path_join (in_base_path self) [key] in
  let gcs_output :=
    Os.path_join (out_base_path self) [key; "annotated_video.mp4"] in
  let suffix := Os.path_join key [datestamp; "annotated_video.mp4"] in
  let cdn_output :=
    Os.path_join (cdn_base_path self) [cdn_upload_path self; suffix] in
  let cdn_relative := Os.path_join (cdn_upload_path self) [suffix] in
  match getitem values 0 with
  | Raise e => raising e
  | Ok v0 =>
      let metadata :=
        {| client_version := ev_client_version v0;
           md_print_session := ev_print_session v0;
           user_id := ev_user_id v0;
           octoprint_device_id := ev_octoprint_device_id v0;
           cloudiot_device_id := ev_cloudiot_device_id v0;
           window_start := None;
           window_end := None |} in
      mkOutcome
        [ {| msg_print_session := key;
             msg_metadata := metadata;
             event_type := video_done;
             gcs_input := gcs_input;
             gcs_output := gcs_output;
             cdn_output := cdn_output;
             cdn_relative := cdn_relative;
             msg_bucket := bucket self |} ]
        [LogInfo (if is_last pane_info
                  then "pane_info.is_last=True"
                  else "pane_info.is_last=False") (w_start window) (w_end window)]
        None
  end.

End CreateVideoRenderMessage.

(** *** MonitorHealthStateful *)

(** A cell declared by [CombiningValueStateSpec(name, sum)]: the
    accumulator of the wrapped callable is the list of the inputs added
    so far, and reading the cell applies [sum] to it. *)
Module CombiningValueState.

Definition cell : Type := list Z.

Definition read (c : cell) : Z := foldr Z.add 0%Z c.

Definition add (c : cell) (v : Z) : cell := c ++ [v].

End CombiningValueState.

Module MonitorHealthStateful.

Record t : Type := mk {
  failure_threshold : Z;
  pubsub_topic : string;
  quiet : bool
}.

(** [__init__(self, pubsub_topic, failure_threshold=2, quiet=True)]. *)
Definition __init__ (pubsub_topic : string) (failure_threshold : Z) (quiet : bool) : t :=
  {| failure_threshold := failure_threshold;
     pubsub_topic := pubsub_topic;
     quiet := quiet |}.

Definition received_msg : string := "MonitorHealthStateful received".

(** [failures] is the cell that the runner binds to the element key; the
    cell after the call is returned next to the outcome. *)
Definition process {V : Type} (self : t) (element : string * V)
    (pane_info : PaneInfo) (window : Window)
    (failures : CombiningValueState.cell)
  : CombiningValueState.cell * outcome (string * V) :=
  let '(key, values) := element in
  let current_failures := CombiningValueState.read failures in
  let failures := CombiningValueState.add failures 1 in
  let window_start := w_start window in
  let window_end := w_end window in
  (failures,
   mkOutcome [(key, values)]
     [LogInfo received_msg window_start window_end;
      LogPane pane_info window current_failures]
     None).

(** The keyed state store of the runner, one cell per key, and the
    delivery of one window firing to [process]. *)
Definition cell_of (store : gmap string (list Z)) (key : string)
  : CombiningValueState.cell :=
  default [] (store !! key).

Definition counter (store : gmap string (list Z)) (key : string) : Z :=
  CombiningValueState.read (cell_of store key).

Definition firing (V : Type) : Type := ((string * V) * PaneInfo) * Window.

Definition firing_key {V : Type} (f : firing V) : string := fst (fst (fst f)).

Definition fire {V : Type} (self : t) (store : gmap string (list Z))
    (f : firing V)
  : gmap string (list Z) * outcome (string * V) :=
  let '(element, pane_info, window) := f in
  let key := fst element in
  let r := process self element pane_info window (cell_of store key) in
  (<[key := fst r]> store, snd r).

Definition run {V : Type} (self : t) (store : gmap string (list Z))
    (history : list (firing V)) : gmap string (list Z) :=
  foldl (fun st f => fst (fire self st f)) store history.

End MonitorHealthStateful.

End Health.

(** ** The reduction of section 4.4, in the words of the specification *)

Module TrendSpec.

Import Health.

Definition list_max_or (d : Qc) (l : list Qc) : Qc :=
  match l with
  | [] => d
  | x :: l' => foldl Py.max x l'
  end.

Definition list_min_or (d : Qc) (l : list Qc) : Qc :=
  match l with
  | [] => d
  | x :: l' => foldl Py.min x l'
  end.

(** max of health_score over the records with weight > 0 at [t], 0 if none. *)
Definition positive (rows : list WindowedHealthRecord) (t : Z) : Qc :=
  list_max_or 0
    (map health_score (filter (fun r => 0 < health_weight r /\ ts r = t) rows)).

(** min of health_score over the records with weight < 0 at [t], 0 if none. *)
Definition negative (rows : list WindowedHealthRecord) (t : Z) : Qc :=
  list_min_or 0
    (map health_score (filter (fun r => health_weight r < 0 /\ ts r = t) rows)).

Definition per_timestamp_value (rows : list WindowedHealthRecord) (t : Z) : Qc :=
  positive rows t + negative rows t.

Definition distinct_timestamps (rows : list WindowedHealthRecord) : list Z :=
  Pd.sorted_unique (map ts rows).

(** The running cumulative sum of the per-timestamp values over the
    timestamps [tss]. *)
Definition trajectory_over (tss : list Z) (rows : list WindowedHealthRecord)
  : list (Z * Qc) :=
  zip tss (Pd.running_sum 0 (map (per_timestamp_value rows) tss)).

(** The trajectory as the specification words it: one value for each
    distinct timestamp of the record set. *)
Definition health_trajectory (rows : list WindowedHealthRecord) : list (Z * Qc) :=
  trajectory_over (distinct_timestamps rows) rows.

(** The records that carry a signed weight. *)
Definition weighted (rows : list WindowedHealthRecord) : list WindowedHealthRecord :=
  filter (fun r => health_weight r <> 0) rows.


End TrendSpec.

(** ** The retention contract of section 4.2, in the words of the specification *)

Module FilterSpec.

Import AreaOfInterest.

(** The fraction of [box] that lies inside [aoi]: intersection area over
    the area of the box itself. *)
Definition fractionalOverlap (box aoi : Coords) : Qc :=
  let x_left := Py.max (i0 aoi) (i0 box) in
  let y_top := Py.max (i1 aoi) (i1 box) in
  let x_right := Py.min (i2 aoi) (i2 box) in
  let y_bottom := Py.min (i3 aoi) (i3 box) in
  if bool_decide (x_right < x_left) || bool_decide (y_bottom < y_top) then 0
  else ((x_right - x_left) * (y_bottom - y_top))
       / ((i2 box - i0 box) * (i3 box - i1 box)).

(** The intersection rectangle is empty: x_right < x_left or y_bottom < y_top. *)
Definition disjoint (box aoi : Coords) : Prop :=
  Py.min (i2 aoi) (i2 box) < Py.max (i0 aoi) (i0 box)
  \/ Py.min (i3 aoi) (i3 box) < Py.max (i1 aoi) (i1 box).

(** [box] lies inside [aoi]. *)
Definition contained (box aoi : Coords) : Prop :=
  i0 aoi <= i0 box /\ i1 aoi <= i1 box /\ i2 box <= i2 aoi /\ i3 box <= i3 aoi.

(** [box] has positive width and height. *)
Definition proper (box : Coords) : Prop :=
  i0 box < i2 box /\ i1 box < i3 box.

(** [box] is given in normalized coordinates, each within [0,1]. *)
Definition normalized (box : Coords) : Prop :=
  Forall (fun c => 0 <= c /\ c <= 1) [i0 box; i1 box; i2 box; i3 box].

(** Twice the smallest normal float64: 2^-1021. *)
Definition min_area : Qc := Q2Qc (1 # (2 ^ 1021)).

(** The area of [box] is at least [min_area].  The extents of the box
    as floats are within a factor 1 +- 2^-53 of the exact ones, so their
    float product is at least 2^-1022 and not 0.0. *)
Definition has_area (box : Coords) : Prop :=
  min_area <= (i2 box - i0 box) * (i3 box - i1 box).

(** keep = score > scoreThreshold, and with a calibration also
    fractionalOverlap(box, calibration) >= minOverlap. *)
Definition keep (calibration : option Coords) (minOverlap scoreThreshold : Qc)
    (score : Qc) (box : Coords) : bool :=
  match calibration with
  | None => bool_decide (scoreThreshold < score)
  | Some aoi =>
      bool_decide (scoreThreshold < score)
      && bool_decide (minOverlap <= fractionalOverlap box aoi)
  end.

(** The (score, box, class) triples that the contract retains, in order. *)
Definition retained (calibration : option Coords) (minOverlap scoreThreshold : Qc)
    (element : BoxAnnotations) : list (Qc * Coords * Z) :=
  filter (fun d => keep calibration minOverlap scoreThreshold (fst (fst d)) (snd (fst d)) = true)
         (zip (zip (detection_scores element) (detection_boxes element))
              (detection_classes element)).

End FilterSpec.

(** ** Concrete inputs *)

Module Examples.

Import AreaOfInterest Health.

Definition q (n : Z) (d : positive) : Qc := Q2Qc (n # d).

(** A stand-in for numpy's polynomial class, to run the transforms on
    concrete inputs: the fitted object records the call that made it, and
    a call that leaves the coefficients undetermined is rejected. *)
Record recorded_fit : Type := mkFit {
  fit_x : list Z;
  fit_y : list Qc;
  fit_deg : Z
}.

Definition recording_fit (x : list Z) (y : list Qc) (deg : Z) : result recorded_fit :=
  if bool_decide (deg < 0)%Z then Raise ValueError
  else if bool_decide (length x <> length y) then Raise TypeError
  else if bool_decide (Z.of_nat (length (remove_dups x)) <= deg)%Z
       then Raise LinAlgError
       else Ok (mkFit x y deg).

#[export] Instance RecordingFit : PolynomialApi := {|
  Polynomial := recorded_fit;
  fit := recording_fit;
  coef := fun _ => [];
  domain := fun _ => [];
  roots := fun _ => [];
  degree := fit_deg
|}.

(** A weight table with a healthy, an unhealthy and a neutral class. *)
Definition example_index : gmap Z Qc :=
  {[ 1%Z := q 1 1; 2%Z := q (-1) 1; 3%Z := q 0 1 ]}.

Definition unit_square : Coords := mkCoords (q 0 1) (q 0 1) (q 1 1) (q 1 1).

(** One confident detection well inside the unit square. *)
Definition inner_box : Coords := mkCoords (q 1 4) (q 1 4) (q 1 2) (q 1 2).

Definition one_detection : BoxAnnotations :=
  mkBoxAnnotations 1 [q 9 10] [inner_box] [1%Z] [q 1 1].

(** The padding row of a detector: all coordinates zero. *)
Definition zero_box : Coords := mkCoords (q 0 1) (q 0 1) (q 0 1) (q 0 1).

(** Scores [0.9, 0.8, 0.3] with classes of weights [+1, -1, +1]. *)
Definition three_detections : BoxAnnotations :=
  mkBoxAnnotations 3 [q 9 10; q 8 10; q 3 10]
    [inner_box; inner_box; inner_box] [1%Z; 2%Z; 1%Z] [q 1 1; q (-1) 1; q 1 1].

Definition example_metadata : Metadata :=
  mkMetadata "0.1.0" "session-a" 1 1 "device-1" (Some 0%Z) (Some 30%Z).

(** A record of class [c] with weight [w] and score [s] at time [t]. *)
Definition rec_at (t : Z) (c : Z) (w s : Qc) : WindowedHealthRecord :=
  mkRecord example_metadata t "session-a" s c w (w * s).

Definition example_window : Window := mkWindow 0 30.

(** Two records at one timestamp: 0.9 of a healthy class, 0.8 of an
    unhealthy one. *)
Definition same_ts_pair : list WindowedHealthRecord :=
  [rec_at 10 1 (q 1 1) (q 9 10); rec_at 10 2 (q (-1) 1) (q 8 10)].

(** Three records, the earliest of a class of weight 0. *)
Definition neutral_first : list WindowedHealthRecord :=
  [rec_at 1 3 (q 0 1) (q 7 10);
   rec_at 2 1 (q 1 1) (q 9 10);
   rec_at 3 1 (q 1 1) (q 1 2)].

(** Two records: fewer than the default warm-up. *)
Definition short_window : list WindowedHealthRecord :=
  [rec_at 1 1 (q 1 1) (q 9 10); rec_at 2 1 (q 1 1) (q 8 10)].


(** Four records at four timestamps, delivered out of order. *)
Definition four_ts_window : list WindowedHealthRecord :=
  [rec_at 3 1 (q 1 1) (q 9 10);
   rec_at 1 1 (q 1 1) (q 8 10);
   rec_at 4 2 (q (-1) 1) (q 7 10);
   rec_at 2 1 (q 1 1) (q 9 10)].

Definition example_event : NestedTelemetryEvent :=
  mkEvent "0.1.0" "session-a" 1 1 "device-1" 10 2 [q 9 10; q 8 10] [1%Z; 2%Z].

Definition example_renderer : CreateVideoRenderMessage.t :=
  CreateVideoRenderMessage.__init__
    "gs://bucket/in" "gs://bucket/out" "https://cdn.example" "media" "bucket".

Definition example_monitor : MonitorHealthStateful.t :=
  MonitorHealthStateful.__init__ "monitoring-video-render" 2 true.

(** A second implementation of the interface: it reports an empty
    series with an exception that is not a [ValueError] (a [TypeError],
    as the check "expected non-empty vector for x" of numpy's
    least-squares helper would) and records every other call. *)
Definition nonempty_fit (x : list Z) (y : list Qc) (deg : Z) : result recorded_fit :=
  match x with
  | [] => Raise TypeError
  | _ => Ok (mkFit x y deg)
  end.

Definition NonemptyFit : PolynomialApi := {|
  Polynomial := recorded_fit;
  fit := nonempty_fit;
  coef := fun _ => [];
  domain := fun _ => [];
  roots := fun _ => [];
  degree := fit_deg
|}.

(** Three records of a class of weight 0. *)
Definition neutral_window : list WindowedHealthRecord :=
  [rec_at 1 3 (q 0 1) (q 7 10);
   rec_at 2 3 (q 0 1) (q 9 10);
   rec_at 3 3 (q 0 1) (q 1 2)].

(** A box whose right edge lies left of its left edge. *)
Definition inverted_box : Coords := mkCoords (q 1 2) (q 1 4) (q 1 4) (q 1 2).

(** A box to the right of the unit square. *)
Definition outside_box : Coords := mkCoords (q 2 1) (q 0 1) (q 3 1) (q 1 1).

(** A box of width and height 10^-200 at the origin: positive extents
    whose product, 10^-400, is below every positive float64. *)
Definition thin_box : Coords :=
  mkCoords (q 0 1) (q 0 1) (q 1 (10 ^ 200)) (q 1 (10 ^ 200)).

(** A box that covers the left half of the unit square. *)
Definition left_half : Coords := mkCoords (q 0 1) (q 0 1) (q 1 2) (q 1 1).




Definition early_pane : PaneInfo := mkPane true false 0.
Definition final_pane : PaneInfo := mkPane false true 1.

End Examples.

(** * Properties *)

(** ** Outcomes and loops *)

Module PyFacts.

Lemma bind_Ok {A B} (m : result A) (k : A -> result B) b :
  Py.bind m k = Ok b -> exists a, m = Ok a /\ k a = Ok b.
Proof. destruct m as [a|e]; simpl; [eauto | discriminate]. Qed.

Lemma for_each_length {A B} (f : A -> result B) l ys :
  Py.for_each f l = Ok ys -> length ys = length l.
Proof.
  revert ys. induction l as [|x l IH]; simpl; intros ys Hys.
  - by inversion Hys.
  - apply bind_Ok in Hys as (y & _ & Hys).
    apply bind_Ok in Hys as (ys' & Hl & Hys).
    inversion Hys; subst. simpl. f_equal. by apply IH.
Qed.

Lemma for_each_Forall2 {A B} (f : A -> result B) l ys :
  Py.for_each f l = Ok ys -> Forall2 (fun x y => f x = Ok y) l ys.
Proof.
  revert ys. induction l as [|x l IH]; simpl; intros ys Hys.
  - inversion Hys. constructor.
  - apply bind_Ok in Hys as (y & Hy & Hys).
    apply bind_Ok in Hys as (ys' & Hl & Hys).
    inversion Hys; subst. constructor; [done|by apply IH].
Qed.

Lemma for_each_total {A B} (f : A -> result B) l :
  Forall (fun x => exists y, f x = Ok y) l -> exists ys, Py.for_each f l = Ok ys.
Proof.
  induction 1 as [|x l [y Hy] _ [ys Hys]]; simpl; [eauto|].
  rewrite Hy, Hys. simpl. eauto.
Qed.

Lemma max_pick a b : Py.max a b = a \/ Py.max a b = b.
Proof. unfold Py.max. case_bool_decide; auto. Qed.

Lemma max_l a b : a <= Py.max a b.
Proof. unfold Py.max. case_bool_decide; [by apply Qclt_le_weak|apply Qcle_refl]. Qed.

Lemma max_r a b : b <= Py.max a b.
Proof. unfold Py.max. case_bool_decide; [apply Qcle_refl|by apply Qcnot_lt_le]. Qed.

Lemma min_pick a b : Py.min a b = a \/ Py.min a b = b.
Proof. unfold Py.min. case_bool_decide; auto. Qed.

Lemma min_l a b : Py.min a b <= a.
Proof. unfold Py.min. case_bool_decide; [by apply Qclt_le_weak|apply Qcle_refl]. Qed.

Lemma min_r a b : Py.min a b <= b.
Proof. unfold Py.min. case_bool_decide; [apply Qcle_refl|by apply Qcnot_lt_le]. Qed.

Lemma max_absorb a b : a <= b -> Py.max a b = b.
Proof.
  intros Hab. apply Qcle_antisym; [|apply max_r].
  destruct (max_pick a b) as [-> | ->]; [done|apply Qcle_refl].
Qed.

Lemma min_absorb a b : b <= a -> Py.min a b = b.
Proof.
  intros Hab. apply Qcle_antisym; [apply min_r|].
  destruct (min_pick a b) as [-> | ->]; [done|apply Qcle_refl].
Qed.

(** Order facts on exact rationals used for areas and ratios. *)

Lemma sub_nonneg a b : a <= b -> 0 <= b - a.
Proof. intros Hab. by apply Qcle_minus_iff in Hab. Qed.

Lemma sub_pos a b : a < b -> 0 < b - a.
Proof. intros Hab. by apply Qclt_minus_iff in Hab. Qed.

Lemma sub_mono a b c d : a <= b -> c <= d -> a - d <= b - c.
Proof.
  intros Hab Hcd. unfold Qcminus.
  apply Qcplus_le_compat; [done|by apply Qcopp_le_compat].
Qed.

Lemma mul_nonneg a b : 0 <= a -> 0 <= b -> 0 <= a * b.
Proof.
  intros Ha Hb. rewrite <-(Qcmult_0_l b). by apply Qcmult_le_compat_r.
Qed.

Lemma mul_pos a b : 0 < a -> 0 < b -> 0 < a * b.
Proof.
  intros Ha Hb. rewrite <-(Qcmult_0_l b). by apply Qcmult_lt_compat_r.
Qed.

Lemma mul_mono a b c d : 0 <= a -> a <= b -> 0 <= c -> c <= d -> a * c <= b * d.
Proof.
  intros Ha Hab Hc Hcd. apply Qcle_trans with (b * c).
  - by apply Qcmult_le_compat_r.
  - rewrite (Qcmult_comm b c), (Qcmult_comm b d).
    apply Qcmult_le_compat_r; [done|]. by apply Qcle_trans with a.
Qed.

Lemma div_mul_cancel a b : b <> 0 -> a / b * b = a.
Proof. intros Hb. rewrite Qcmult_comm. by apply Qcmult_div_r. Qed.

Lemma div_unit_interval a b : 0 <= a -> a <= b -> 0 < b -> 0 <= a / b /\ a / b <= 1.
Proof.
  intros Ha Hab Hb.
  assert (Hb0 : b <> 0) by (intros ->; by apply (irreflexivity Qclt 0)).
  split; apply (Qcmult_lt_0_le_reg_r _ _ b Hb); rewrite div_mul_cancel by done.
  - by rewrite Qcmult_0_l.
  - by rewrite Qcmult_1_l.
Qed.

Lemma div_self a : a <> 0 -> a / a = 1.
Proof. intros Ha. unfold Qcdiv. by apply Qcmult_inv_r. Qed.

(** The underflowing product. *)

Lemma tiny_bounds : - Py.tiny <= 0 /\ 0 <= Py.tiny.
Proof. split; vm_compute; discriminate. Qed.

Opaque Py.tiny.

Lemma mul_exact_zero a b : a * b = 0 -> Py.mul a b = 0.
Proof. intros Hz. unfold Py.mul. rewrite Hz. by destruct (_ && _). Qed.

Lemma mul_flush a b : Py.mul a b = 0 \/ Py.mul a b = a * b.
Proof. unfold Py.mul. destruct (_ && _); auto. Qed.

Lemma mul_underflow_nonneg a b : 0 <= a * b -> 0 <= Py.mul a b.
Proof.
  intros Hab. destruct (mul_flush a b) as [-> | ->]; [apply Qcle_refl|done].
Qed.

Lemma mul_above a b : Py.tiny < a * b -> Py.mul a b = a * b.
Proof.
  intros Hab. unfold Py.mul.
  rewrite (bool_decide_eq_false_2 (a * b <= Py.tiny)) by (by apply Qclt_not_le).
  by rewrite andb_false_r.
Qed.

(** Underflow keeps the order of non-negative products. *)
Lemma mul_underflow_mono a b c d :
  0 <= a * b -> a * b <= c * d -> Py.mul a b <= Py.mul c d.
Proof.
  intros Hab Hle. destruct tiny_bounds as [Hneg Hpos]. unfold Py.mul.
  destruct (bool_decide (- Py.tiny <= c * d)) eqn:Hlo;
    destruct (bool_decide (c * d <= Py.tiny)) eqn:Hhi; simpl.
  - apply bool_decide_eq_true_1 in Hhi.
    rewrite (bool_decide_eq_true_2 (- Py.tiny <= a * b))
      by (by apply Qcle_trans with 0).
    rewrite (bool_decide_eq_true_2 (a * b <= Py.tiny))
      by (by apply Qcle_trans with (c * d)).
    apply Qcle_refl.
  - destruct (_ && _); [by apply Qcle_trans with (a * b)|done].
  - destruct (_ && _); [by apply Qcle_trans with (a * b)|done].
  - destruct (_ && _); [by apply Qcle_trans with (a * b)|done].
Qed.

End PyFacts.

(** ** The geometry filter and the detection filter *)

Module AreaOfInterestFacts.

Import PyFacts AreaOfInterest.

(** The loop body, with its error monad unfolded. *)
Lemma percent_intersection_of_eq aoi box :
  percent_intersection_of aoi box =
  if bool_decide (Py.min (i2 aoi) (i2 box) < Py.max (i0 aoi) (i0 box))
     || bool_decide (Py.min (i3 aoi) (i3 box) < Py.max (i1 aoi) (i1 box))
  then Ok 0
  else
    let intersection_area :=
      Py.mul (Py.min (i2 aoi) (i2 box) - Py.max (i0 aoi) (i0 box))
             (Py.min (i3 aoi) (i3 box) - Py.max (i1 aoi) (i1 box)) in
    let box_area := Py.mul (i2 box - i0 box) (i3 box - i1 box) in
    if bool_decide (box_area = 0) then Raise ZeroDivisionError
    else if bool_decide (intersection_area / box_area = 1) then Ok 1
         else Ok (intersection_area / box_area).
Proof.
  unfold percent_intersection_of, Py.div. cbv zeta.
  destruct (_ || _); [reflexivity|].
  destruct (bool_decide (Py.mul _ _ = 0)); reflexivity.
Qed.

(** The loop body fails in one way only. *)
Lemma percent_intersection_of_raise aoi box e :
  percent_intersection_of aoi box = Raise e -> e = ZeroDivisionError.
Proof.
  rewrite percent_intersection_of_eq. cbv zeta.
  destruct (_ || _); [discriminate|].
  destruct (bool_decide (Py.mul _ _ = 0)); [by intros [= <-]|].
  destruct (bool_decide (_ = 1)); discriminate.
Qed.

Lemma min_area_bounds : 0 < FilterSpec.min_area /\ Py.tiny < FilterSpec.min_area.
Proof. split; vm_compute; reflexivity. Qed.

Opaque FilterSpec.min_area.

(** A box with [FilterSpec.has_area] has an area, as computed, other
    than 0. *)
Lemma has_area_mul box :
  FilterSpec.has_area box -> Py.mul (i2 box - i0 box) (i3 box - i1 box) <> 0.
Proof.
  intros Harea. destruct min_area_bounds as [Hpos Htiny].
  rewrite mul_above by (eapply Qclt_le_trans; [exact Htiny|exact Harea]).
  intros Hz. apply (irreflexivity Qclt 0).
  eapply Qclt_le_trans; [exact Hpos|]. rewrite <-Hz. exact Harea.
Qed.

(** Where the area of the box, as computed, is not 0 the loop body
    never fails and returns a fraction in [0,1]. *)
Lemma percent_intersection_of_unit_interval aoi box :
  Py.mul (i2 box - i0 box) (i3 box - i1 box) <> 0 ->
  exists r, percent_intersection_of aoi box = Ok r /\ 0 <= r /\ r <= 1.
Proof.
  intros Harea. rewrite percent_intersection_of_eq. cbv zeta.
  assert (H01 : (0 : Qc) <= 1) by (vm_compute; discriminate).
  destruct (bool_decide (_ < _)) eqn:Hx; cbn [orb].
  { exists 0. split; [reflexivity|]. split; [apply Qcle_refl|exact H01]. }
  destruct (bool_decide (Py.min (i3 aoi) _ < _)) eqn:Hy; cbn [orb].
  { exists 0. split; [reflexivity|]. split; [apply Qcle_refl|exact H01]. }
  apply bool_decide_eq_false_1, Qcnot_lt_le in Hx.
  apply bool_decide_eq_false_1, Qcnot_lt_le in Hy.
  rewrite (bool_decide_eq_false_2 _ Harea).
  assert (Hin : 0 <= (Py.min (i2 aoi) (i2 box) - Py.max (i0 aoi) (i0 box))
                     * (Py.min (i3 aoi) (i3 box) - Py.max (i1 aoi) (i1 box)))
    by (apply mul_nonneg; by apply sub_nonneg).
  assert (Hle : (Py.min (i2 aoi) (i2 box) - Py.max (i0 aoi) (i0 box))
                * (Py.min (i3 aoi) (i3 box) - Py.max (i1 aoi) (i1 box))
                <= (i2 box - i0 box) * (i3 box - i1 box)).
  { apply mul_mono; try by apply sub_nonneg.
    - apply sub_mono; [apply min_r|apply max_r].
    - apply sub_mono; [apply min_r|apply max_r]. }
  pose proof (mul_underflow_nonneg _ _ Hin) as Hin'.
  pose proof (mul_underflow_mono _ _ _ _ Hin Hle) as Hle'.
  assert (Hpos : 0 < Py.mul (i2 box - i0 box) (i3 box - i1 box)).
  { destruct (Qcle_lt_or_eq _ _ (Qcle_trans _ _ _ Hin' Hle')) as [Hlt|Heq];
      [exact Hlt|]. destruct Harea. symmetry. exact Heq. }
  destruct (div_unit_interval _ _ Hin' Hle' Hpos) as [H0 H1].
  destruct (bool_decide (_ = 1)).
  - exists 1. split; [reflexivity|]. split; [exact H01|apply Qcle_refl].
  - eexists. split; [reflexivity|]. split; [exact H0|exact H1].
Qed.

(** A box of positive extent inside the area of interest gets the
    fraction 1, if its area as computed is not 0. *)
Lemma percent_intersection_of_contained aoi box :
  FilterSpec.proper box -> FilterSpec.contained box aoi ->
  Py.mul (i2 box - i0 box) (i3 box - i1 box) <> 0 ->
  percent_intersection_of aoi box = Ok 1.
Proof.
  intros [Hw Hh] (H0 & H1 & H2 & H3) Harea.
  rewrite percent_intersection_of_eq. cbv zeta.
  rewrite !max_absorb, !min_absorb by done.
  rewrite !bool_decide_eq_false_2 by (by apply Qcle_not_lt, Qclt_le_weak).
  cbn [orb]. rewrite (bool_decide_eq_false_2 _ Harea).
  rewrite div_self by exact Harea.
  by rewrite bool_decide_eq_true_2.
Qed.

(** The fraction lies in the unit interval on proper boxes. *)
Lemma fractionalOverlap_unit_interval aoi box :
  FilterSpec.proper box ->
  0 <= FilterSpec.fractionalOverlap box aoi /\ FilterSpec.fractionalOverlap box aoi <= 1.
Proof.
  intros [Hw Hh]. unfold FilterSpec.fractionalOverlap.
  destruct (bool_decide (_ < _)) eqn:Hx; simpl; [done|].
  destruct (bool_decide (Py.min (i3 aoi) _ < _)) eqn:Hy; simpl; [done|].
  apply bool_decide_eq_false_1, Qcnot_lt_le in Hx, Hy.
  apply div_unit_interval.
  - apply mul_nonneg; by apply sub_nonneg.
  - apply mul_mono; try by apply sub_nonneg.
    + apply sub_mono; [apply min_r|apply max_r].
    + apply sub_mono; [apply min_r|apply max_r].
  - apply mul_pos; by apply sub_pos.
Qed.

Lemma fractionalOverlap_disjoint aoi box :
  FilterSpec.disjoint box aoi -> FilterSpec.fractionalOverlap box aoi = 0.
Proof.
  intros [Hx|Hy]; unfold FilterSpec.fractionalOverlap.
  - by rewrite (bool_decide_eq_true_2 _ Hx).
  - rewrite (bool_decide_eq_true_2 _ Hy). by rewrite orb_true_r.
Qed.

Lemma fractionalOverlap_contained aoi box :
  FilterSpec.proper box -> FilterSpec.contained box aoi ->
  FilterSpec.fractionalOverlap box aoi = 1.
Proof.
  intros [Hw Hh] (H0 & H1 & H2 & H3). unfold FilterSpec.fractionalOverlap.
  rewrite !max_absorb, !min_absorb by done.
  rewrite !bool_decide_eq_false_2 by (by apply Qcle_not_lt, Qclt_le_weak).
  simpl. apply div_self. intros Hz. apply (irreflexivity Qclt 0).
  rewrite <-Hz at 2. apply mul_pos; by apply sub_pos.
Qed.

(** Where neither area underflows, the loop body returns the fraction
    of the specification: intersection area over the area of the box. *)
Lemma percent_intersection_of_fraction aoi box :
  ~ FilterSpec.disjoint box aoi ->
  FilterSpec.has_area box ->
  FilterSpec.min_area
  <= (Py.min (i2 aoi) (i2 box) - Py.max (i0 aoi) (i0 box))
     * (Py.min (i3 aoi) (i3 box) - Py.max (i1 aoi) (i1 box)) ->
  percent_intersection_of aoi box = Ok (FilterSpec.fractionalOverlap box aoi).
Proof.
  intros Hnd Harea Hin. destruct min_area_bounds as [_ Htiny].
  pose proof (has_area_mul _ Harea) as Hnz.
  rewrite percent_intersection_of_eq. unfold FilterSpec.fractionalOverlap.
  cbv zeta.
  destruct (bool_decide (_ < _)) eqn:Hx; cbn [orb].
  { destruct Hnd. left. by apply bool_decide_eq_true_1 in Hx. }
  destruct (bool_decide (Py.min (i3 aoi) _ < _)) eqn:Hy; cbn [orb].
  { destruct Hnd. right. by apply bool_decide_eq_true_1 in Hy. }
  rewrite (bool_decide_eq_false_2 _ Hnz).
  rewrite !mul_above by (eapply Qclt_le_trans; [exact Htiny|done]).
  destruct (bool_decide (_ = 1)) eqn:Hone; [|reflexivity].
  apply bool_decide_eq_true_1 in Hone. f_equal. symmetry. exact Hone.
Qed.

(** The disjoint case needs no assumption on the box. *)
Lemma percent_intersection_of_disjoint aoi box :
  FilterSpec.disjoint box aoi -> percent_intersection_of aoi box = Ok 0.
Proof.
  intros [Hx|Hy]; unfold percent_intersection_of.
  - by rewrite (bool_decide_eq_true_2 _ Hx).
  - rewrite (bool_decide_eq_true_2 _ Hy). by rewrite orb_true_r.
Qed.

(** A box without area that touches the area of interest makes the loop
    body divide by zero. *)
Lemma percent_intersection_of_degenerate aoi box :
  ~ FilterSpec.disjoint box aoi ->
  (i2 box - i0 box) * (i3 box - i1 box) = 0 ->
  percent_intersection_of aoi box = Raise ZeroDivisionError.
Proof.
  intros Hnd Hz. rewrite percent_intersection_of_eq. cbv zeta.
  destruct (bool_decide (_ < _)) eqn:Hx; cbn [orb].
  { destruct Hnd. left. by apply bool_decide_eq_true_1 in Hx. }
  destruct (bool_decide (Py.min (i3 aoi) _ < _)) eqn:Hy; cbn [orb].
  { destruct Hnd. right. by apply bool_decide_eq_true_1 in Hy. }
  by rewrite (mul_exact_zero (i2 box - i0 box)), bool_decide_eq_true_2.
Qed.

(** Positive extents do not rule the division by zero out: the area of
    [Examples.thin_box] underflows. *)
Lemma percent_intersection_of_thin_box :
  FilterSpec.proper Examples.thin_box
  /\ FilterSpec.contained Examples.thin_box Examples.unit_square
  /\ percent_intersection_of Examples.unit_square Examples.thin_box
     = Raise ZeroDivisionError.
Proof. split_and!; [by split|by repeat split|by vm_compute]. Qed.

(** C3.  The geometry filter is meant to return a fraction in [0,1] for
    every box: 0 for a disjoint box, 1 for a contained one.  On a box
    without area that is not disjoint from the area of interest (the
    all-zero padding row of a detector, inside the unit square) the loop
    body divides 0 by 0 and [calc_percent_intersection] returns no
    fraction at all. *)
Theorem calc_percent_intersection_zero_box :
  FilterSpec.contained Examples.zero_box Examples.unit_square
  /\ ~ FilterSpec.disjoint Examples.zero_box Examples.unit_square
  /\ calc_percent_intersection [Examples.zero_box] Examples.unit_square
     = Raise ZeroDivisionError.
Proof.
  assert (Hnd : ~ FilterSpec.disjoint Examples.zero_box Examples.unit_square).
  { intros [H|H]; vm_compute in H; discriminate. }
  split_and!; [by repeat split|done|].
  unfold calc_percent_intersection. cbn [Py.for_each].
  rewrite percent_intersection_of_degenerate; [done|done|].
  by apply Qc_is_canon.
Qed.

(** *** The mask and the selections *)

Lemma select_length {A} (arr : list A) mask :
  length arr = length mask -> length (Np.select arr mask) = Np.count_nonzero mask.
Proof.
  unfold Np.select, Np.count_nonzero. revert mask.
  induction arr as [|a arr IH]; intros [|b mask] Hlen; simpl in *; try done.
  injection Hlen as Hlen.
  rewrite !filter_cons. simpl. destruct b; simpl.
  - repeat case_decide; try done. simpl. f_equal. by apply IH.
  - repeat case_decide; try done. by apply IH.
Qed.

Lemma mask_select_length {A} (arr : list A) mask out :
  Np.mask_select arr mask = Ok out -> length out = Np.count_nonzero mask.
Proof.
  unfold Np.mask_select. case_bool_decide; [|discriminate].
  intros [= <-]. by apply select_length.
Qed.

Lemma select_subseteq {A} (arr : list A) mask x :
  x ∈ Np.select arr mask -> x ∈ arr.
Proof.
  unfold Np.select. rewrite list_elem_of_fmap.
  intros ([y b] & -> & Hin). apply list_elem_of_filter in Hin as [_ Hin].
  simpl. by apply elem_of_zip_l in Hin.
Qed.

Lemma select_zip3 {A B} (p : Qc -> bool) scores (boxes : list A) (classes : list B) :
  length boxes = length scores -> length classes = length scores ->
  zip (zip (Np.select scores (map p scores)) (Np.select boxes (map p scores)))
      (Np.select classes (map p scores))
  = filter (fun d => p (fst (fst d)) = true) (zip (zip scores boxes) classes).
Proof.
  unfold Np.select. revert boxes classes.
  induction scores as [|s scores IH]; intros [|b boxes] [|c classes] Hb Hc;
    simpl in *; try done.
  injection Hb as Hb. injection Hc as Hc.
  rewrite !filter_cons. simpl. destruct (decide (p s = true)); simpl.
  - f_equal. by apply IH.
  - by apply IH.
Qed.

(** With a calibration the filter never returns: if the overlaps can be
    computed at all, the mask expression fails on [&]. *)
Lemma filter_box_annotations_calibrated_raises CI e c mo thr :
  exists ex, filter_box_annotations CI e (Some c) mo thr = Raise ex.
Proof.
  unfold filter_box_annotations.
  destruct (calc_percent_intersection _ _) as [pi|ex]; simpl; eauto.
Qed.

(** Without a calibration the filter retains what the contract retains. *)
Lemma filter_box_annotations_uncalibrated CI e mo thr :
  length (detection_boxes e) = length (detection_scores e) ->
  length (detection_classes e) = length (detection_scores e) ->
  Forall (fun c => is_Some (CI !! c)) (detection_classes e) ->
  exists out,
    filter_box_annotations CI e None mo thr = Ok out
    /\ zip (zip (detection_scores out) (detection_boxes out)) (detection_classes out)
       = FilterSpec.retained None mo thr e
    /\ num_detections out = Z.of_nat (length (FilterSpec.retained None mo thr e)).
Proof.
  intros Hb Hc Hin. unfold filter_box_annotations. simpl.
  set (mask := map (fun x => Np.gtb x thr) (detection_scores e)).
  assert (Hm : length mask = length (detection_scores e)) by apply length_map.
  unfold Np.mask_select.
  rewrite !bool_decide_eq_true_2 by congruence. simpl.
  destruct (for_each_total (health_weight_of CI)
              (Np.select (detection_classes e) mask)) as [ws Hws].
  { apply Forall_forall. intros c Hc'. apply select_subseteq in Hc'.
    rewrite Forall_forall in Hin. destruct (Hin c Hc') as [w Hw].
    exists w. unfold health_weight_of. by rewrite Hw. }
  rewrite Hws. simpl. eexists. split; [done|]. simpl.
  assert (Hzip : zip (zip (Np.select (detection_scores e) mask)
                          (Np.select (detection_boxes e) mask))
                     (Np.select (detection_classes e) mask)
                 = FilterSpec.retained None mo thr e).
  { unfold mask. by rewrite select_zip3. }
  split; [done|]. rewrite <-Hzip.
  rewrite !length_zip, !select_length by congruence. f_equal. lia.
Qed.

Lemma filter_box_annotations_lengths CI e cal mo thr out :
  filter_box_annotations CI e cal mo thr = Ok out ->
  num_detections out = Z.of_nat (length (detection_scores out))
  /\ length (detection_boxes out) = length (detection_scores out)
  /\ length (detection_classes out) = length (detection_scores out)
  /\ length (health_weights out) = length (detection_scores out).
Proof.
  unfold filter_box_annotations. intros Hf.
  apply bind_Ok in Hf as (im & _ & Hf).
  apply bind_Ok in Hf as (mask & _ & Hf).
  apply bind_Ok in Hf as (bs & Hb & Hf).
  apply bind_Ok in Hf as (ss & Hs & Hf).
  apply bind_Ok in Hf as (cs & Hc & Hf).
  apply bind_Ok in Hf as (ws & Hw & Hf).
  inversion Hf; subst; simpl.
  apply mask_select_length in Hb, Hs, Hc. apply for_each_length in Hw.
  rewrite Hs, Hb, Hc, Hw. done.
Qed.

(** C1.  The retention contract keeps a detection iff its score exceeds
    the threshold and, under a calibration, its overlap reaches the
    minimum.  One detection of score 0.9 inside the unit square is kept
    by that contract at the default thresholds; the source, given the
    same calibration, evaluates [0.75 & detection_scores] first and ends
    in a [TypeError] instead of returning it. *)
Theorem filter_box_annotations_calibrated_TypeError :
  FilterSpec.keep (Some Examples.unit_square)
    default_min_calibration_area_overlap default_min_score_threshold
    (Examples.q 9 10) Examples.inner_box = true
  /\ filter_box_annotations Examples.example_index Examples.one_detection
       (Some {| coordinates := Examples.unit_square |})
       default_min_calibration_area_overlap default_min_score_threshold
     = Raise TypeError.
Proof. split; vm_compute; reflexivity. Qed.

(** The scenario of section 8 without calibration: of the scores
    [0.9, 0.8, 0.3] the threshold 0.66 drops the last. *)
Example filter_three_detections :
  exists out,
    filter_box_annotations Examples.example_index Examples.three_detections None
      default_min_calibration_area_overlap default_min_score_threshold = Ok out
    /\ num_detections out = 2%Z
    /\ detection_classes out = [1%Z; 2%Z]
    /\ length (detection_scores out) = 2%nat.
Proof. eexists. split; [vm_compute; reflexivity|]. by repeat split. Qed.

(** C10.  For an input whose three sequences have equal length, every
    output of the filter has [num_detections] equal to the number of
    kept detections and four arrays of exactly that many entries; and
    the filter does return such an output when no calibration is given
    and the classes are in the weight table. *)
Theorem filter_box_annotations_consistent CI e cal mo thr :
  length (detection_boxes e) = length (detection_scores e) ->
  length (detection_classes e) = length (detection_scores e) ->
  (forall out,
     filter_box_annotations CI e cal mo thr = Ok out ->
     num_detections out = Z.of_nat (length (detection_scores out))
     /\ length (detection_boxes out) = length (detection_scores out)
     /\ length (detection_classes out) = length (detection_scores out)
     /\ length (health_weights out) = length (detection_scores out))
  /\ (cal = None ->
      Forall (fun c => is_Some (CI !! c)) (detection_classes e) ->
      exists out,
        filter_box_annotations CI e cal mo thr = Ok out
        /\ num_detections out = Z.of_nat (length (FilterSpec.retained None mo thr e))).
Proof.
  intros Hb Hc. split.
  - intros out. apply filter_box_annotations_lengths.
  - intros -> Hin.
    destruct (filter_box_annotations_uncalibrated CI e mo thr Hb Hc Hin)
      as (out & Hout & _ & Hn).
    eauto.
Qed.

Lemma filter_box_annotations_consistent_witness :
  exists out,
    filter_box_annotations Examples.example_index Examples.three_detections None
      default_min_calibration_area_overlap default_min_score_threshold = Ok out
    /\ num_detections out = 2%Z
    /\ length (health_weights out) = length (detection_scores out).
Proof.
  destruct (filter_box_annotations_consistent Examples.example_index
              Examples.three_detections None
              default_min_calibration_area_overlap default_min_score_threshold
              eq_refl eq_refl) as [Hlen Hex].
  destruct Hex as (out & Hout & Hn); [reflexivity| |].
  - repeat constructor; vm_compute; eauto.
  - exists out. split; [exact Hout|]. split.
    + rewrite Hn. vm_compute. reflexivity.
    + apply (Hlen out Hout).
Defined.

End AreaOfInterestFacts.

(** ** Series *)

Module PdFacts.

Import PyFacts.

Lemma elem_of_sorted_unique l x : x ∈ Pd.sorted_unique l <-> x ∈ l.
Proof.
  unfold Pd.sorted_unique.
  rewrite merge_sort_Permutation. apply elem_of_remove_dups.
Qed.

Lemma NoDup_sorted_unique l : NoDup (Pd.sorted_unique l).
Proof.
  unfold Pd.sorted_unique.
  rewrite merge_sort_Permutation. apply NoDup_remove_dups.
Qed.

Lemma Sorted_sorted_unique l : Sorted Z.le (Pd.sorted_unique l).
Proof. apply (Sorted_merge_sort Z.le). Qed.

(** The index depends on the set of labels only. *)
Lemma sorted_unique_ext l1 l2 :
  (forall x, x ∈ l1 <-> x ∈ l2) -> Pd.sorted_unique l1 = Pd.sorted_unique l2.
Proof.
  intros Hel. apply (Sorted_unique Z.le); try apply Sorted_sorted_unique.
  apply NoDup_Permutation; try apply NoDup_sorted_unique.
  intros x. by rewrite !elem_of_sorted_unique.
Qed.

Lemma get_tabulate (g : Z -> Qc) keys k :
  Pd.get (map (fun k => (k, g k)) keys) k
  = if bool_decide (k ∈ keys) then Some (g k) else None.
Proof.
  induction keys as [|k' keys IH]; [done|].
  cbn [map Pd.get]. rewrite IH.
  destruct (decide (k' = k)) as [->|Hne].
  - rewrite !bool_decide_eq_true_2; [done|by left|done].
  - rewrite (bool_decide_eq_false_2 (k' = k)) by done.
    apply (f_equal (fun b : bool => if b then Some (g k) else None)).
    apply bool_decide_ext. rewrite elem_of_cons. split; [tauto|].
    intros [->|Hin]; [done|tauto].
Qed.

Lemma index_tabulate (g : Z -> Qc) keys :
  Pd.index (map (fun k => (k, g k)) keys) = keys.
Proof. unfold Pd.index. rewrite map_map. simpl. apply map_id. Qed.

Lemma values_tabulate (g : Z -> Qc) keys :
  Pd.values (map (fun k => (k, g k)) keys) = map g keys.
Proof. unfold Pd.values. by rewrite map_map. Qed.

Lemma running_sum_length acc l : length (Pd.running_sum acc l) = length l.
Proof. revert acc. induction l as [|x l IH]; intros acc; simpl; [done|by rewrite IH]. Qed.

Lemma group_values_nil rows k : k ∉ map fst rows -> Pd.group_values rows k = [].
Proof.
  unfold Pd.group_values. induction rows as [|[k' v] rows IH]; simpl; [done|].
  rewrite not_elem_of_cons. intros [Hne Hk]. rewrite filter_cons. simpl.
  case_decide; [congruence|]. by apply IH.
Qed.

(** Looking a label up in a grouped reduction, with 0 for a missing
    label, is the reduction of that label's group. *)
Lemma groupby_get f rows k :
  default 0 (Pd.get (Pd.groupby_agg f rows) k) = Pd.reduce f (Pd.group_values rows k).
Proof.
  unfold Pd.groupby_agg.
  rewrite (get_tabulate (fun k => Pd.reduce f (Pd.group_values rows k))).
  case_bool_decide as Hk; [done|]. simpl.
  rewrite group_values_nil; [done|]. by rewrite <-elem_of_sorted_unique.
Qed.

(** [max] and [min] pick one of their arguments and bound both: folding
    such a choice over a list does not depend on the order of the list. *)
Section Selection.

Variable R : relation Qc.
Variable f : Qc -> Qc -> Qc.
Hypothesis R_refl : forall a, R a a.
Hypothesis R_trans : forall a b c, R a b -> R b c -> R a c.
Hypothesis R_antisym : forall a b, R a b -> R b a -> a = b.
Hypothesis f_pick : forall a b, f a b = a \/ f a b = b.
Hypothesis f_l : forall a b, R a (f a b).
Hypothesis f_r : forall a b, R b (f a b).

Lemma foldl_select_bound x l :
  foldl f x l ∈ x :: l /\ forall y, y ∈ x :: l -> R y (foldl f x l).
Proof.
  revert x. induction l as [|z l IH]; intros x; simpl.
  - split; [by left|]. intros y Hy. apply list_elem_of_singleton in Hy. by subst.
  - destruct (IH (f x z)) as [Hin Hub]. split.
    + apply elem_of_cons in Hin as [Heq|Hin]; [|by do 2 right].
      rewrite Heq. destruct (f_pick x z) as [->| ->]; [by left|by right; left].
    + intros y Hy. apply elem_of_cons in Hy as [->|Hy].
      * apply R_trans with (f x z); [apply f_l|]. apply Hub. by left.
      * apply elem_of_cons in Hy as [->|Hy].
        -- apply R_trans with (f x z); [apply f_r|]. apply Hub. by left.
        -- apply Hub. by right.
Qed.

Lemma reduce_Permutation l1 l2 : l1 ≡ₚ l2 -> Pd.reduce f l1 = Pd.reduce f l2.
Proof.
  intros Hp. destruct l1 as [|x1 l1], l2 as [|x2 l2]; simpl.
  - done.
  - by apply Permutation_nil_l in Hp.
  - by apply Permutation_nil_r in Hp.
  - destruct (foldl_select_bound x1 l1) as [Hin1 Hub1].
    destruct (foldl_select_bound x2 l2) as [Hin2 Hub2].
    apply R_antisym.
    + apply Hub2. by rewrite <-Hp.
    + apply Hub1. by rewrite Hp.
Qed.

End Selection.

Lemma reduce_max_Permutation l1 l2 :
  l1 ≡ₚ l2 -> Pd.reduce Py.max l1 = Pd.reduce Py.max l2.
Proof.
  apply (reduce_Permutation Qcle);
    auto using Qcle_refl, Qcle_antisym, max_pick, max_l, max_r.
  intros a b c. apply Qcle_trans.
Qed.

Lemma reduce_min_Permutation l1 l2 :
  l1 ≡ₚ l2 -> Pd.reduce Py.min l1 = Pd.reduce Py.min l2.
Proof.
  apply (reduce_Permutation (flip Qcle)); unfold flip;
    auto using Qcle_refl, Qcle_antisym, min_pick, min_l, min_r.
  intros a b c ??. by apply Qcle_trans with b.
Qed.

End PdFacts.

(** ** The trend of a window *)

Module TrendFacts.

Import PyFacts PdFacts Health TrendSpec.

Lemma group_values_filter (P : WindowedHealthRecord -> Prop)
    `{!forall r, Decision (P r)} df k :
  Pd.group_values (ts_health_score (filter P df)) k
  = map health_score (filter (fun r => P r /\ ts r = k) df).
Proof.
  unfold Pd.group_values, ts_health_score.
  induction df as [|r df IH]; [done|].
  rewrite !filter_cons. destruct (decide (P r)) as [HP|HP]; simpl.
  - rewrite filter_cons. simpl. destruct (decide (ts r = k)) as [Ht|Ht].
    + rewrite decide_True by done. simpl. by rewrite IH.
    + rewrite decide_False by tauto. done.
  - rewrite decide_False by tauto. done.
Qed.

(** The labels of the two grouped reductions together are the
    timestamps of the records of nonzero weight. *)
Lemma xy_index df :
  Pd.sorted_unique
    (Pd.index (Pd.groupby_agg Py.max
                 (ts_health_score (filter (fun r => 0 < health_weight r) df)))
     ++ Pd.index (Pd.groupby_agg Py.min
                    (ts_health_score (filter (fun r => health_weight r < 0) df))))
  = distinct_timestamps (weighted df).
Proof.
  unfold distinct_timestamps, weighted, Pd.groupby_agg.
  rewrite !index_tabulate. apply sorted_unique_ext. intros x.
  rewrite elem_of_app, !elem_of_sorted_unique. unfold ts_health_score.
  rewrite !map_map. simpl.
  rewrite !list_elem_of_fmap. setoid_rewrite list_elem_of_filter.
  split.
  - intros [(r & -> & Hr & Hin)|(r & -> & Hr & Hin)]; exists r; split_and!; try done.
    + intros Hz. rewrite Hz in Hr. by apply (irreflexivity Qclt 0).
    + intros Hz. rewrite Hz in Hr. by apply (irreflexivity Qclt 0).
  - intros (r & -> & Hr & Hin).
    destruct (Qc_dec 0 (health_weight r)) as [[Hlt|Hgt]|Heq].
    + left. eauto.
    + right. eauto.
    + by destruct Hr.
Qed.

Section WithPolynomial.

Context `{PolynomialApi}.

(** The Series computed by the source is the reduction of section 4.4
    taken over the timestamps of the records of nonzero weight. *)
Lemma xy_series_spec df :
  xy_series df = trajectory_over (distinct_timestamps (weighted df)) df.
Proof.
  unfold xy_series, Pd.cumsum, Pd.add, trajectory_over.
  rewrite (index_tabulate (fun k => default 0 (Pd.get _ k) + default 0 (Pd.get _ k))).
  rewrite (values_tabulate (fun k => default 0 (Pd.get _ k) + default 0 (Pd.get _ k))).
  rewrite xy_index. f_equal. f_equal. apply map_ext. intros k.
  rewrite !groupby_get, !group_values_filter. done.
Qed.

(** Where every record carries a signed weight this is the trajectory
    exactly as the specification words it. *)
Lemma xy_series_all_weighted df :
  Forall (fun r => health_weight r <> 0) df -> xy_series df = health_trajectory df.
Proof.
  intros Hall. rewrite xy_series_spec. unfold health_trajectory, weighted.
  f_equal. f_equal. induction Hall as [|r df Hr _ IH]; [done|].
  rewrite filter_cons, decide_True by done. by rewrite IH.
Qed.

End WithPolynomial.

Lemma per_timestamp_value_Permutation rows1 rows2 t :
  rows1 ≡ₚ rows2 -> per_timestamp_value rows1 t = per_timestamp_value rows2 t.
Proof.
  intros Hp. unfold per_timestamp_value, positive, negative. f_equal.
  - apply reduce_max_Permutation. by rewrite Hp.
  - apply reduce_min_Permutation. by rewrite Hp.
Qed.

(** The trajectory does not depend on the order of arrival. *)
Lemma trajectory_Permutation rows1 rows2 :
  rows1 ≡ₚ rows2 ->
  trajectory_over (distinct_timestamps (weighted rows1)) rows1
  = trajectory_over (distinct_timestamps (weighted rows2)) rows2.
Proof.
  intros Hp. unfold trajectory_over.
  assert (distinct_timestamps (weighted rows1)
          = distinct_timestamps (weighted rows2)) as ->.
  { unfold distinct_timestamps, weighted. apply sorted_unique_ext.
    intros x. by rewrite Hp. }
  f_equal. f_equal. apply map_ext. intros t.
  by apply per_timestamp_value_Permutation.
Qed.

(** The example of the claim: 0.9 of weight +1 and 0.8 of weight -1 at
    one timestamp give the value 0.1 there. *)
Example per_timestamp_value_same_ts_pair :
  per_timestamp_value Examples.same_ts_pair 10 = Examples.q 1 10.
Proof. by apply Qc_is_canon. Qed.

End TrendFacts.

(** ** SortWindowedHealthDataframe *)

Module AggregatorFacts.

Import PyFacts PdFacts Health TrendSpec TrendFacts.
Import SortWindowedHealthDataframe.

Lemma sorted_frame_Permutation records df :
  sorted_frame records = Ok df -> df ≡ₚ records.
Proof.
  destruct records as [|r records]; [discriminate|].
  intros [= <-]. apply merge_sort_Permutation.
Qed.

Lemma sorted_frame_nonempty records :
  records <> [] -> sorted_frame records = Ok (merge_sort ts_le records).
Proof. by destruct records. Qed.

#[local] Instance ts_le_total : Total ts_le.
Proof. intros a b. unfold ts_le. lia. Qed.

Lemma sorted_frame_Sorted records df :
  sorted_frame records = Ok df -> Sorted ts_le df.
Proof.
  destruct records as [|r records]; [discriminate|].
  intros [= <-]. apply (Sorted_merge_sort ts_le).
Qed.

Section WithPolynomial.

Context `{PolynomialApi}.

(** What stands behind an emitted element. *)
Lemma process_emitted self key records window kt :
  kt ∈ emitted (process self (key, records) window) ->
  exists df trend,
    sorted_frame records = Ok df
    /\ (warmup self <= Z.of_nat (length df))%Z
    /\ fit (Pd.index (xy_series df)) (Pd.values (xy_series df)) (polyfit_degree self)
       = Ok trend
    /\ fst kt = key
    /\ t_cumsum (snd kt) = Pd.values (xy_series df)
    /\ poly_degree (snd kt) = degree trend.
Proof.
  unfold process.
  destruct (sorted_frame records) as [df|e] eqn:Hdf; simpl;
    [|by intros ?%elem_of_nil].
  case_bool_decide as Hw; simpl; [by intros ?%elem_of_nil|].
  unfold health_score_trend_polynomial_v1.
  destruct (fit _ _ _) as [trend|e] eqn:Hfit; simpl.
  - destruct (getitem df 0) as [first|e]; simpl; [|by intros ?%elem_of_nil].
    intros ->%list_elem_of_singleton. exists df, trend. simpl.
    split_and!; try done. lia.
  - destruct (Py.is_ValueError e); simpl; by intros ?%elem_of_nil.
Qed.

(** C2 (amended).  Every trajectory that the aggregator emits is the
    running cumulative sum, in ascending timestamp order, of the
    per-timestamp values max(health_score over weight > 0, else 0) +
    min(health_score over weight < 0, else 0), taken over the distinct
    timestamps that carry at least one record of nonzero weight. *)
Theorem emitted_trajectory self key records window kt :
  kt ∈ emitted (process self (key, records) window) ->
  t_cumsum (snd kt)
  = Pd.values (trajectory_over (distinct_timestamps (weighted records)) records).
Proof.
  intros (df & trend & Hdf & _ & _ & _ & Hcum & _)%process_emitted.
  rewrite Hcum, xy_series_spec. f_equal.
  by apply trajectory_Permutation, sorted_frame_Permutation.
Qed.

(** Below the warm-up threshold a non-empty window is skipped silently. *)
Lemma process_below_warmup self key records window :
  records <> [] ->
  (Z.of_nat (length records) < warmup self)%Z ->
  process self (key, records) window = mkOutcome [] [] None.
Proof.
  intros Hne Hlt. unfold process.
  rewrite sorted_frame_nonempty by done.
  rewrite bool_decide_eq_true_2; [done|].
  by rewrite (Permutation_length (merge_sort_Permutation ts_le records)).
Qed.

(** C4.  A window with fewer records than the warm-up threshold emits
    nothing; for a window that holds a record at all the call returns
    normally, with nothing logged and nothing raised. *)
Theorem warmup_gate self key records window :
  (Z.of_nat (length records) < warmup self)%Z ->
  emitted (process self (key, records) window) = []
  /\ (records <> [] -> process self (key, records) window = mkOutcome [] [] None).
Proof.
  intros Hlt. destruct records as [|r records]; [by split|].
  rewrite process_below_warmup by done. by split.
Qed.

(** A HealthTrend is emitted only for at least warm-up-many records. *)
Lemma emitted_after_warmup self key records window :
  emitted (process self (key, records) window) <> [] ->
  (warmup self <= Z.of_nat (length records))%Z.
Proof.
  intros Hne.
  destruct (decide (Z.of_nat (length records) < warmup self)%Z) as [Hlt|]; [|lia].
  destruct records as [|r records]; [done|].
  by rewrite process_below_warmup in Hne.
Qed.


(** The configured degree does not reach the instance. *)
Lemma init_degree warmup polyfit_degree :
  __init__ warmup polyfit_degree = __init__ warmup 1.
Proof. reflexivity. Qed.


End WithPolynomial.

End AggregatorFacts.

(** ** The aggregator on concrete windows *)

Module AggregatorRuns.

Import Health TrendSpec SortWindowedHealthDataframe.
Import Examples AggregatorFacts.

(** C2, as worded, fails where a timestamp carries records of weight 0
    only: the specification gives that timestamp the value 0 and an
    entry of the trajectory, the source leaves it out.  Three records,
    the earliest of weight 0: the emitted trajectory has two entries,
    the trajectory of the specification three. *)
Lemma trajectory_omits_neutral_timestamp :
  ~ (forall kt,
       kt ∈ emitted (process (__init__ 3 1) ("session-a", neutral_first) example_window) ->
       t_cumsum (snd kt) = Pd.values (health_trajectory neutral_first)).
Proof.
  intros Hall.
  assert (Hex : exists kt,
             kt ∈ emitted (process (__init__ 3 1) ("session-a", neutral_first)
                             example_window)).
  { destruct (emitted _) as [|kt l] eqn:He; [|exists kt; left].
    apply (f_equal length) in He. vm_compute in He. discriminate. }
  destruct Hex as [kt Hin]. specialize (Hall kt Hin).
  apply process_emitted in Hin as (df & trend & Hdf & _ & _ & _ & Hcum & _).
  injection Hdf as <-. rewrite Hcum in Hall.
  apply (f_equal length) in Hall. vm_compute in Hall. discriminate.
Qed.

Lemma emitted_trajectory_witness :
  length (emitted (process (__init__ 3 1) ("session-a", neutral_first) example_window))
  = 1%nat
  /\ Forall (fun kt =>
              t_cumsum (snd kt)
              = Pd.values (trajectory_over
                             (distinct_timestamps (weighted neutral_first))
                             neutral_first))
       (emitted (process (__init__ 3 1) ("session-a", neutral_first) example_window)).
Proof.
  split; [vm_compute; reflexivity|].
  apply Forall_forall. intros kt Hin.
  exact (emitted_trajectory (__init__ 3 1) "session-a" neutral_first
           example_window kt Hin).
Defined.

Lemma warmup_gate_witness :
  process (__init__ 3 1) ("session-a", short_window) example_window
  = mkOutcome [] [] None.
Proof.
  refine (proj2 (warmup_gate (__init__ 3 1) "session-a" short_window
                   example_window _) _).
  - vm_compute. reflexivity.
  - discriminate.
Defined.



(** C6.  The aggregator is meant to fit the configured degree and to
    emit a trend of that degree.  Configured with degree 2 the instance
    holds degree 1, and on four records at four timestamps, where a fit
    of degree 2 is possible, the emitted trend has degree 1. *)
Theorem configured_degree_ignored :
  polyfit_degree (__init__ 3 2) = 1%Z
  /\ map (fun kt => poly_degree (snd kt))
       (emitted (process (__init__ 3 2) ("session-a", four_ts_window) example_window))
     = [1%Z]
  /\ (exists trend,
        health_score_trend_polynomial_v1 (merge_sort ts_le four_ts_window) 2
        = Py.Ok (xy_series (merge_sort ts_le four_ts_window), trend)
        /\ degree trend = 2%Z).
Proof.
  split; [reflexivity|]. split; [vm_compute; reflexivity|].
  eexists. split; [vm_compute; reflexivity|reflexivity].
Qed.

End AggregatorRuns.

(** ** MonitorHealthStateful *)

Module MonitorFacts.

Import Health MonitorHealthStateful.

Lemma read_add c v :
  CombiningValueState.read (CombiningValueState.add c v)
  = (CombiningValueState.read c + v)%Z.
Proof.
  unfold CombiningValueState.read, CombiningValueState.add.
  induction c as [|x c IH]; simpl; [lia|]. rewrite IH. lia.
Qed.

Lemma fire_store {V} self store (f : firing V) :
  fst (fire self store f)
  = <[firing_key f := CombiningValueState.add (cell_of store (firing_key f)) 1]> store.
Proof. by destruct f as [[[key values] pane] window]. Qed.

Lemma fire_emitted {V} self store (f : firing V) :
  emitted (snd (fire self store f)) = [fst (fst f)].
Proof. by destruct f as [[[key values] pane] window]. Qed.

(** One firing adds 1 to the counter of its key and leaves every other
    counter as it was. *)
Lemma fire_counter {V} self store (f : firing V) k :
  counter (fst (fire self store f)) k
  = (counter store k + if bool_decide (k = firing_key f) then 1 else 0)%Z.
Proof.
  rewrite fire_store. unfold counter, cell_of.
  case_bool_decide as Hk.
  - subst. rewrite lookup_insert_eq. simpl. apply read_add.
  - rewrite lookup_insert_ne by done. lia.
Qed.

Lemma run_counter {V} self store (history : list (firing V)) k :
  counter (run self store history) k
  = (counter store k
     + Z.of_nat (length (filter (fun f => firing_key f = k) history)))%Z.
Proof.
  unfold run. revert store.
  induction history as [|f history IH]; intros store; simpl; [lia|].
  rewrite IH, fire_counter, filter_cons.
  destruct (decide (firing_key f = k)) as [Hk|Hk].
  - rewrite bool_decide_eq_true_2 by done. simpl. lia.
  - rewrite bool_decide_eq_false_2 by done. lia.
Qed.

(** C8.  A firing raises the counter of its own key by exactly 1, leaves
    the counters of all other keys unchanged and passes its element
    through; over any sequence of firings the counter of a key grows by
    the number of firings for that key, so it never decreases. *)
Theorem counter_counts_firings {V} self store (history : list (firing V))
    (f : firing V) (k : string) :
  counter (fst (fire self store f)) k
  = (counter store k + if bool_decide (k = firing_key f) then 1 else 0)%Z
  /\ emitted (snd (fire self store f)) = [fst (fst f)]
  /\ counter (run self store history) k
     = (counter store k
        + Z.of_nat (length (filter (fun g => firing_key g = k) history)))%Z
  /\ (counter store k <= counter (run self store history) k)%Z.
Proof.
  split_and!.
  - apply fire_counter.
  - apply fire_emitted.
  - apply run_counter.
  - rewrite run_counter. lia.
Qed.

(** Two sessions firing in turn: each counter counts its own firings. *)
Example two_sessions :
  let a : firing nat := (("session-a", 0%nat), Examples.early_pane, Examples.example_window) in
  let b : firing nat := (("session-b", 0%nat), Examples.final_pane, Examples.example_window) in
  let store := run Examples.example_monitor ∅ [a; b; a] in
  counter store "session-a" = 2%Z /\ counter store "session-b" = 1%Z
  /\ counter store "session-c" = 0%Z.
Proof. by vm_compute. Qed.

End MonitorFacts.

(** ** CreateVideoRenderMessage *)

Module RenderFacts.

Import Health CreateVideoRenderMessage.

Example path_join_example :
  Os.path_join "gs://bucket/out" ["session-a"; "annotated_video.mp4"]
  = "gs://bucket/out/session-a/annotated_video.mp4"
  /\ Os.path_join "media/" ["session-a"] = "media/session-a"
  /\ Os.path_join "media" ["/abs"; "x"] = "/abs/x".
Proof. by vm_compute. Qed.

(** Whatever the pane, a call on a non-empty batch yields exactly one
    message, and the message does not depend on the pane. *)
Lemma process_emits_one self datestamp key v values window pane_info :
  exists msg,
    emitted (process self datestamp (key, v :: values) window pane_info) = [msg]
    /\ emitted (process self datestamp (key, v :: values) window Examples.final_pane)
       = [msg].
Proof. eexists. split; reflexivity. Qed.

(** C5.  A message is meant for the terminal firing only.  On a pane
    that is not the last one the source yields a message all the same,
    the very message it yields on the final pane. *)
Theorem render_message_on_early_pane :
  is_last Examples.early_pane = false
  /\ length (emitted (process Examples.example_renderer "2021/03/01"
                        ("session-a", [Examples.example_event])
                        Examples.example_window Examples.early_pane)) = 1%nat
  /\ emitted (process Examples.example_renderer "2021/03/01"
                ("session-a", [Examples.example_event])
                Examples.example_window Examples.early_pane)
     = emitted (process Examples.example_renderer "2021/03/01"
                  ("session-a", [Examples.example_event])
                  Examples.example_window Examples.final_pane).
Proof. by split_and!. Qed.

End RenderFacts.

(** ** ExplodeWindowedHealthRecord *)

Module ExploderFacts.

Import PyFacts AreaOfInterest Health ExplodeWindowedHealthRecord.

Lemma explode_one_health_score CI md e i r :
  explode_one CI md e i = Ok r ->
  health_score r = health_weight r * detection_score r.
Proof.
  unfold explode_one. intros Hr.
  apply bind_Ok in Hr as (score & _ & Hr).
  apply bind_Ok in Hr as (class & _ & Hr).
  apply bind_Ok in Hr as (weight & _ & Hr).
  by inversion Hr.
Qed.

(** One record per detection, each with health_score = weight * score. *)
Lemma process_records CI e window rs :
  process CI e window = Ok rs ->
  length rs = Z.to_nat (ev_num_detections e)
  /\ Forall (fun r => health_score r = health_weight r * detection_score r) rs.
Proof.
  unfold process. intros Hrs. split.
  - apply for_each_length in Hrs. by rewrite Hrs, length_seq.
  - apply for_each_Forall2 in Hrs.
    induction Hrs as [|i r idx rs' Hr _ IH]; constructor; [|done].
    by eapply explode_one_health_score.
Qed.

(** Indexing positions [0 .. num_detections-1] succeeds on arrays that
    have at least that many entries, the shape that the filter
    guarantees for its output. *)
Lemma process_total CI e window :
  (Z.to_nat (ev_num_detections e) <= length (ev_detection_scores e))%nat ->
  (Z.to_nat (ev_num_detections e) <= length (ev_detection_classes e))%nat ->
  Forall (fun c => is_Some (CI !! c)) (ev_detection_classes e) ->
  exists rs, process CI e window = Ok rs.
Proof.
  intros Hs Hc Hin. unfold process. apply for_each_total.
  apply Forall_forall. intros i Hi. apply elem_of_seq in Hi as [_ Hi].
  unfold explode_one, getitem.
  destruct (lookup_lt_is_Some_2 (ev_detection_scores e) i) as [score ->]; [lia|].
  destruct (lookup_lt_is_Some_2 (ev_detection_classes e) i) as [class Hclass]; [lia|].
  rewrite Hclass. simpl.
  rewrite Forall_forall in Hin.
  destruct (Hin class) as [w Hw]; [by eapply list_elem_of_lookup_2|].
  unfold health_weight_of. rewrite Hw. simpl. eauto.
Qed.

(** The scenario of section 8: the two retained detections explode
    into two records. *)
Example explode_example :
  exists rs,
    process Examples.example_index Examples.example_event Examples.example_window
    = Ok rs
    /\ length rs = 2%nat.
Proof. eexists. split; [vm_compute; reflexivity|reflexivity]. Qed.

End ExploderFacts.

(** * Further properties of the transforms *)

(** ** [calc_percent_intersection] on lists of boxes *)

Module GeometryProps.

Import PyFacts AreaOfInterest AreaOfInterestFacts.

Lemma for_each_raise {A B} (f : A -> result B) l e :
  Py.for_each f l = Raise e -> exists x, x ∈ l /\ f x = Raise e.
Proof.
  induction l as [|x l IH]; simpl; [discriminate|].
  destruct (f x) as [y|e'] eqn:Hx; simpl.
  - destruct (Py.for_each f l) as [ys|e'']; simpl; [discriminate|].
    intros [= ->]. destruct IH as (x' & Hin & Hx'); [done|].
    exists x'. split; [by right|done].
  - intros [= ->]. exists x. split; [by left|done].
Qed.

Lemma for_each_app_raise {A B} (f : A -> result B) l1 x l2 ys e :
  Py.for_each f l1 = Ok ys -> f x = Raise e ->
  Py.for_each f (l1 ++ x :: l2) = Raise e.
Proof.
  revert ys. induction l1 as [|a l1 IH]; intros ys Hys Hx; simpl.
  - by rewrite Hx.
  - simpl in Hys. apply bind_Ok in Hys as (y & Hy & Hys).
    apply bind_Ok in Hys as (ys' & Hl & _).
    rewrite Hy. simpl. by rewrite (IH ys').
Qed.

Lemma for_each_app_raise_l {A B} (f : A -> result B) l1 l2 e :
  Py.for_each f l1 = Raise e -> Py.for_each f (l1 ++ l2) = Raise e.
Proof.
  induction l1 as [|a l1 IH]; simpl; [discriminate|].
  destruct (f a) as [y|e']; simpl; [|done].
  destruct (Py.for_each f l1) as [ys|e'']; simpl; [discriminate|].
  intros [= ->]. by rewrite IH.
Qed.

(** On boxes in normalized coordinates whose area is not negligible
    the call succeeds with one fraction per box, each in [0,1]. *)
Theorem calc_percent_intersection_unit_interval boxes aoi :
  Forall (fun box => FilterSpec.normalized box /\ FilterSpec.has_area box) boxes ->
  exists fractions,
    calc_percent_intersection boxes aoi = Ok fractions
    /\ length fractions = length boxes
    /\ Forall (fun x => 0 <= x /\ x <= 1) fractions.
Proof.
  intros Hall. unfold calc_percent_intersection.
  induction Hall as [|box boxes [_ Harea] _ (fractions & Hfs & Hlen & Hfr)].
  { exists []. by split_and!. }
  destruct (percent_intersection_of_unit_interval aoi box (has_area_mul _ Harea))
    as (r & Hr & H0 & H1).
  exists (r :: fractions). cbn [Py.for_each]. rewrite Hr, Hfs. cbn [Py.bind].
  split_and!; [done|by rewrite !length_cons, Hlen|by apply Forall_cons_2].
Qed.

Lemma calc_percent_intersection_unit_interval_witness :
  exists fractions,
    calc_percent_intersection [Examples.unit_square; Examples.inner_box]
      Examples.left_half = Ok fractions
    /\ length fractions = 2%nat
    /\ Forall (fun x => 0 <= x /\ x <= 1) fractions.
Proof.
  apply (calc_percent_intersection_unit_interval
           [Examples.unit_square; Examples.inner_box] Examples.left_half).
  apply Forall_cons_2; [split|apply Forall_cons_2; [split|apply Forall_nil_2]].
  1, 3: repeat (apply Forall_cons_2; [split; vm_compute; discriminate|]);
        apply Forall_nil_2.
  all: vm_compute; discriminate.
Defined.

(** A box or an area of interest whose right edge lies left of its left
    edge, or whose bottom lies above its top, has overlap 0: no area of
    the wrong sign is ever divided. *)
Theorem percent_intersection_of_inverted aoi box :
  i2 box < i0 box \/ i3 box < i1 box \/ i2 aoi < i0 aoi \/ i3 aoi < i1 aoi ->
  percent_intersection_of aoi box = Ok 0.
Proof.
  intros Hinv. apply percent_intersection_of_disjoint.
  destruct Hinv as [Hb|[Hb|[Ha|Ha]]].
  - left. eapply Qcle_lt_trans; [apply min_r|].
    eapply Qclt_le_trans; [exact Hb|apply max_r].
  - right. eapply Qcle_lt_trans; [apply min_r|].
    eapply Qclt_le_trans; [exact Hb|apply max_r].
  - left. eapply Qcle_lt_trans; [apply min_l|].
    eapply Qclt_le_trans; [exact Ha|apply max_l].
  - right. eapply Qcle_lt_trans; [apply min_l|].
    eapply Qclt_le_trans; [exact Ha|apply max_l].
Qed.

Lemma percent_intersection_of_inverted_witness :
  percent_intersection_of Examples.unit_square Examples.inverted_box = Ok 0.
Proof.
  apply (percent_intersection_of_inverted Examples.unit_square Examples.inverted_box).
  left. reflexivity.
Defined.

(** Boxes of positive extent that lie inside the area of interest all
    get the fraction 1, if they are in normalized coordinates and their
    area is not negligible. *)
Theorem calc_percent_intersection_contained boxes aoi :
  Forall (fun box => FilterSpec.proper box /\ FilterSpec.contained box aoi
                     /\ FilterSpec.normalized box /\ FilterSpec.has_area box)
         boxes ->
  calc_percent_intersection boxes aoi = Ok (replicate (length boxes) 1).
Proof.
  intros Hall. unfold calc_percent_intersection.
  induction Hall as [|box boxes (Hp & Hc & _ & Harea) _ IH]; [done|].
  cbn [Py.for_each length replicate].
  rewrite (percent_intersection_of_contained _ _ Hp Hc (has_area_mul _ Harea)).
  cbn [Py.bind]. by rewrite IH.
Qed.

Lemma calc_percent_intersection_contained_witness :
  calc_percent_intersection [Examples.inner_box; Examples.inner_box]
    Examples.unit_square = Ok [1; 1].
Proof.
  apply (calc_percent_intersection_contained
           [Examples.inner_box; Examples.inner_box] Examples.unit_square).
  apply Forall_cons_2;
    [split_and!|apply Forall_cons_2; [split_and!|apply Forall_nil_2]].
  1, 5: by split.
  1, 4: by repeat split.
  1, 3: repeat (apply Forall_cons_2; [split; vm_compute; discriminate|]);
        apply Forall_nil_2.
  all: vm_compute; discriminate.
Defined.

(** Boxes that miss the area of interest all get the fraction 0, boxes
    without area included: the division is not reached. *)
Theorem calc_percent_intersection_disjoint boxes aoi :
  Forall (fun box => FilterSpec.disjoint box aoi) boxes ->
  calc_percent_intersection boxes aoi = Ok (replicate (length boxes) 0).
Proof.
  intros Hall. unfold calc_percent_intersection.
  induction Hall as [|box boxes Hd _ IH]; [done|].
  cbn [Py.for_each length replicate].
  rewrite percent_intersection_of_disjoint by done.
  cbn [Py.bind]. by rewrite IH.
Qed.

Lemma calc_percent_intersection_disjoint_witness :
  calc_percent_intersection [Examples.outside_box; Examples.inverted_box]
    Examples.unit_square = Ok [0; 0].
Proof.
  apply (calc_percent_intersection_disjoint
           [Examples.outside_box; Examples.inverted_box] Examples.unit_square).
  repeat (apply Forall_cons_2; [by left|]). apply Forall_nil_2.
Defined.

(** One box without area that touches the area of interest fails the
    whole call, whatever the boxes after it and however well-formed the
    boxes before it: no fraction is returned for any box. *)
Theorem calc_percent_intersection_poisoned before box after aoi :
  Forall FilterSpec.proper before ->
  ~ FilterSpec.disjoint box aoi ->
  (i2 box - i0 box) * (i3 box - i1 box) = 0 ->
  calc_percent_intersection (before ++ box :: after) aoi = Raise ZeroDivisionError.
Proof.
  intros Hb Hnd Hz. unfold calc_percent_intersection.
  destruct (Py.for_each (percent_intersection_of aoi) before) as [ys|e] eqn:Hbefore.
  - eapply for_each_app_raise; [exact Hbefore|].
    by apply percent_intersection_of_degenerate.
  - destruct (for_each_raise _ _ _ Hbefore) as (box' & _ & Hraise).
    apply percent_intersection_of_raise in Hraise as ->.
    by apply for_each_app_raise_l.
Qed.

Lemma calc_percent_intersection_poisoned_witness :
  calc_percent_intersection
    [Examples.inner_box; Examples.zero_box; Examples.inner_box]
    Examples.unit_square
  = Raise ZeroDivisionError.
Proof.
  apply (calc_percent_intersection_poisoned
           [Examples.inner_box] Examples.zero_box [Examples.inner_box]
           Examples.unit_square).
  - apply Forall_cons_2; [by split|apply Forall_nil_2].
  - intros [Hd|Hd]; vm_compute in Hd; discriminate.
  - by apply Qc_is_canon.
Defined.

End GeometryProps.

(** ** [filter_box_annotations] without a calibration *)

Module FilterProps.

Import PyFacts AreaOfInterest AreaOfInterestFacts GeometryProps.

(** The uncalibrated branch, with the mask written out. *)
Lemma filter_uncalibrated_unfold CI e mo thr :
  length (detection_boxes e) = length (detection_scores e) ->
  length (detection_classes e) = length (detection_scores e) ->
  filter_box_annotations CI e None mo thr
  = Py.bind
      (Py.for_each (health_weight_of CI)
         (Np.select (detection_classes e)
            (map (fun x => Np.gtb x thr) (detection_scores e))))
      (fun weights =>
         Ok {| num_detections :=
                 Z.of_nat (Np.count_nonzero
                             (map (fun x => Np.gtb x thr) (detection_scores e)));
               detection_scores :=
                 Np.select (detection_scores e)
                   (map (fun x => Np.gtb x thr) (detection_scores e));
               detection_boxes :=
                 Np.select (detection_boxes e)
                   (map (fun x => Np.gtb x thr) (detection_scores e));
               detection_classes :=
                 Np.select (detection_classes e)
                   (map (fun x => Np.gtb x thr) (detection_scores e));
               health_weights := weights |}).
Proof.
  intros Hb Hc. unfold filter_box_annotations. simpl.
  unfold Np.mask_select.
  rewrite !bool_decide_eq_true_2 by (rewrite length_map; congruence).
  done.
Qed.

(** A returned output means that the three input arrays agreed in length. *)
Lemma filter_uncalibrated_lengths CI e mo thr out :
  filter_box_annotations CI e None mo thr = Ok out ->
  length (detection_boxes e) = length (detection_scores e)
  /\ length (detection_classes e) = length (detection_scores e).
Proof.
  unfold filter_box_annotations. simpl. intros Hf.
  apply bind_Ok in Hf as (bs & Hb & Hf).
  apply bind_Ok in Hf as (ss & Hs & Hf).
  apply bind_Ok in Hf as (cs & Hc & Hf).
  unfold Np.mask_select in Hb, Hc.
  case_bool_decide as Hb'; [|discriminate].
  case_bool_decide as Hc'; [|discriminate].
  rewrite length_map in Hb', Hc'. done.
Qed.

Lemma select_own_mask (p : Qc -> bool) scores :
  Forall (fun s => p s = true) (Np.select scores (map p scores)).
Proof.
  unfold Np.select. induction scores as [|s scores IH]; simpl; [constructor|].
  rewrite filter_cons. simpl. destruct (decide (p s = true)); simpl; [|done].
  by constructor.
Qed.

Lemma retained_classes e mo thr :
  length (detection_boxes e) = length (detection_scores e) ->
  length (detection_classes e) = length (detection_scores e) ->
  map snd (FilterSpec.retained None mo thr e)
  = Np.select (detection_classes e)
      (map (fun x => Np.gtb x thr) (detection_scores e)).
Proof.
  intros Hb Hc.
  pose proof (select_zip3 (fun x => Np.gtb x thr) (detection_scores e)
                (detection_boxes e) (detection_classes e) Hb Hc) as Hz.
  transitivity (map snd (zip (zip (Np.select (detection_scores e)
                                     (map (fun x => Np.gtb x thr) (detection_scores e)))
                                  (Np.select (detection_boxes e)
                                     (map (fun x => Np.gtb x thr) (detection_scores e))))
                             (Np.select (detection_classes e)
                                (map (fun x => Np.gtb x thr) (detection_scores e))))).
  - f_equal. symmetry. exact Hz.
  - apply snd_zip.
    rewrite length_zip, !select_length by (rewrite length_map; congruence). lia.
Qed.

Lemma select_select {A} (p q : Qc -> bool) (arr : list A) scores :
  length arr = length scores ->
  (forall x, q x = true -> p x = true) ->
  Np.select (Np.select arr (map p scores)) (map q (Np.select scores (map p scores)))
  = Np.select arr (map q scores).
Proof.
  intros Hlen Hqp. unfold Np.select. revert arr Hlen.
  induction scores as [|s scores IH]; intros [|a arr] Hlen; simpl in *; try done.
  injection Hlen as Hlen. specialize (IH arr Hlen).
  rewrite !filter_cons. simpl.
  destruct (decide (p s = true)) as [Hp|Hp]; simpl.
  - rewrite !filter_cons. simpl.
    destruct (decide (q s = true)); simpl; by rewrite IH.
  - rewrite decide_False; [done|]. intros Hq. by apply Hp, Hqp.
Qed.

Lemma count_select (p q : Qc -> bool) scores :
  (forall x, q x = true -> p x = true) ->
  Np.count_nonzero (map q (Np.select scores (map p scores)))
  = Np.count_nonzero (map q scores).
Proof.
  intros Hqp.
  rewrite <-(select_length (Np.select scores (map p scores))) by (by rewrite length_map).
  rewrite <-(select_length scores (map q scores)) by (by rewrite length_map).
  by rewrite select_select.
Qed.

(** What the filter returns without a calibration: the detections with
    a score above the threshold, in input order and with their boxes
    and classes, and for each of them the weight that the table gives
    its class. *)
Theorem filter_box_annotations_retained CI e mo thr out :
  filter_box_annotations CI e None mo thr = Ok out ->
  zip (zip (detection_scores out) (detection_boxes out)) (detection_classes out)
  = FilterSpec.retained None mo thr e
  /\ Forall (fun s => thr < s) (detection_scores out)
  /\ Forall2 (fun c w => CI !! c = Some w) (detection_classes out) (health_weights out).
Proof.
  intros Hout.
  destruct (filter_uncalibrated_lengths CI e mo thr out Hout) as [Hb Hc].
  rewrite filter_uncalibrated_unfold in Hout by done.
  apply bind_Ok in Hout as (ws & Hws & [= <-]). simpl. split_and!.
  - apply (select_zip3 (fun x => Np.gtb x thr)); done.
  - eapply Forall_impl; [apply (select_own_mask (fun x => Np.gtb x thr))|].
    intros s Hs. by apply bool_decide_eq_true_1 in Hs.
  - apply for_each_Forall2 in Hws. eapply Forall2_impl; [exact Hws|].
    intros c w. unfold health_weight_of. destruct (CI !! c); [|discriminate].
    by intros [= ->].
Qed.

Lemma filter_box_annotations_retained_witness :
  exists out,
    filter_box_annotations Examples.example_index Examples.three_detections None
      default_min_calibration_area_overlap default_min_score_threshold = Ok out
    /\ Forall (fun s => default_min_score_threshold < s) (detection_scores out)
    /\ Forall2 (fun c w => Examples.example_index !! c = Some w)
         (detection_classes out) (health_weights out).
Proof.
  destruct (filter_box_annotations Examples.example_index Examples.three_detections
              None default_min_calibration_area_overlap default_min_score_threshold)
    as [out|ex] eqn:Hout; [|vm_compute in Hout; discriminate].
  exists out. split; [reflexivity|].
  exact (proj2 (filter_box_annotations_retained _ _ _ _ _ Hout)).
Defined.

(** Arrays of unequal length are refused with an [IndexError]; nothing
    is truncated or padded. *)
Theorem filter_box_annotations_length_mismatch CI e mo thr :
  length (detection_boxes e) <> length (detection_scores e)
  \/ length (detection_classes e) <> length (detection_scores e) ->
  filter_box_annotations CI e None mo thr = Raise IndexError.
Proof.
  intros Hne. unfold filter_box_annotations. simpl. unfold Np.mask_select.
  rewrite !length_map.
  destruct (decide (length (detection_boxes e) = length (detection_scores e))) as [Hb|Hb].
  - rewrite (bool_decide_eq_true_2 _ Hb). simpl.
    rewrite (bool_decide_eq_true_2 (length (detection_scores e) = _)) by done. simpl.
    rewrite bool_decide_eq_false_2 by tauto. done.
  - by rewrite (bool_decide_eq_false_2 _ Hb).
Qed.

Lemma filter_box_annotations_length_mismatch_witness :
  filter_box_annotations Examples.example_index
    (mkBoxAnnotations 2 [Examples.q 9 10; Examples.q 8 10] [Examples.inner_box]
       [1%Z; 2%Z] [])
    None default_min_calibration_area_overlap default_min_score_threshold
  = Raise IndexError.
Proof.
  apply filter_box_annotations_length_mismatch. left. simpl. lia.
Defined.

(** The weight table is consulted for the retained detections only: the
    call succeeds iff their classes are in the table and is a
    [KeyError] otherwise; the classes of dropped detections are never
    looked up. *)
Theorem filter_box_annotations_weight_lookup CI e mo thr :
  length (detection_boxes e) = length (detection_scores e) ->
  length (detection_classes e) = length (detection_scores e) ->
  (Forall (fun c => is_Some (CI !! c)) (map snd (FilterSpec.retained None mo thr e)) ->
   exists out, filter_box_annotations CI e None mo thr = Ok out)
  /\ (~ Forall (fun c => is_Some (CI !! c)) (map snd (FilterSpec.retained None mo thr e)) ->
      filter_box_annotations CI e None mo thr = Raise KeyError).
Proof.
  intros Hb Hc. rewrite retained_classes, filter_uncalibrated_unfold by done.
  split.
  - intros Hin.
    edestruct (for_each_total (health_weight_of CI)) as [ws Hws];
      [|rewrite Hws; simpl; eauto].
    eapply Forall_impl; [exact Hin|]. intros c [w Hw].
    exists w. unfold health_weight_of. by rewrite Hw.
  - intros Hnin.
    destruct (Py.for_each _ _) as [ws|ex] eqn:Hws; simpl.
    + destruct Hnin. apply for_each_Forall2 in Hws.
      induction Hws as [|c w cs ws' Hcw _ IH]; constructor; [|done].
      unfold health_weight_of in Hcw. destruct (CI !! c); [eauto|discriminate].
    + apply for_each_raise in Hws as (c & _ & Hc').
      unfold health_weight_of in Hc'. destruct (CI !! c); [discriminate|].
      by injection Hc' as <-.
Qed.

(** Class 9 is not in the table: harmless on a dropped detection. *)
Lemma filter_box_annotations_weight_lookup_witness :
  exists out,
    filter_box_annotations Examples.example_index
      (mkBoxAnnotations 2 [Examples.q 9 10; Examples.q 3 10]
         [Examples.inner_box; Examples.inner_box] [1%Z; 9%Z] [])
      None default_min_calibration_area_overlap default_min_score_threshold
    = Ok out.
Proof.
  refine (proj1 (filter_box_annotations_weight_lookup Examples.example_index
                   (mkBoxAnnotations 2 [Examples.q 9 10; Examples.q 3 10]
                      [Examples.inner_box; Examples.inner_box] [1%Z; 9%Z] [])
                   default_min_calibration_area_overlap
                   default_min_score_threshold eq_refl eq_refl) _).
  vm_compute. repeat constructor. eexists. reflexivity.
Defined.

(** Filtering at a threshold and then at a higher one gives what
    filtering at the higher one gives at once; with equal thresholds:
    filtering a filtered set changes nothing. *)
Theorem filter_box_annotations_threshold_compose CI e mo mo' thr thr' out :
  thr <= thr' ->
  filter_box_annotations CI e None mo thr = Ok out ->
  filter_box_annotations CI out None mo' thr'
  = filter_box_annotations CI e None mo' thr'.
Proof.
  intros Hthr Hout.
  destruct (filter_uncalibrated_lengths CI e mo thr out Hout) as [Hb Hc].
  destruct (filter_box_annotations_lengths CI e None mo thr out Hout)
    as (_ & Hb' & Hc' & _).
  rewrite (filter_uncalibrated_unfold CI out) by done.
  rewrite (filter_uncalibrated_unfold CI e) by done.
  rewrite filter_uncalibrated_unfold in Hout by done.
  apply bind_Ok in Hout as (ws & _ & [= <-]). simpl.
  assert (Hqp : forall x, Np.gtb x thr' = true -> Np.gtb x thr = true).
  { intros x Hx. apply bool_decide_eq_true_1 in Hx. apply bool_decide_eq_true_2.
    by eapply Qcle_lt_trans. }
  rewrite !(select_select (fun x => Np.gtb x thr) (fun x => Np.gtb x thr')) by done.
  rewrite (count_select (fun x => Np.gtb x thr) (fun x => Np.gtb x thr')) by done.
  done.
Qed.

Lemma filter_box_annotations_threshold_compose_witness :
  exists out,
    filter_box_annotations Examples.example_index Examples.three_detections None
      default_min_calibration_area_overlap (Examples.q 1 2) = Ok out
    /\ filter_box_annotations Examples.example_index out None
         default_min_calibration_area_overlap default_min_score_threshold
       = filter_box_annotations Examples.example_index Examples.three_detections None
           default_min_calibration_area_overlap default_min_score_threshold.
Proof.
  destruct (filter_box_annotations Examples.example_index Examples.three_detections
              None default_min_calibration_area_overlap (Examples.q 1 2))
    as [out|ex] eqn:Hout; [|vm_compute in Hout; discriminate].
  exists out. split; [reflexivity|].
  apply (filter_box_annotations_threshold_compose Examples.example_index
           Examples.three_detections default_min_calibration_area_overlap
           default_min_calibration_area_overlap (Examples.q 1 2)
           default_min_score_threshold out); [|exact Hout].
  vm_compute. discriminate.
Defined.

End FilterProps.

(** ** [ExplodeWindowedHealthRecord.process] *)

Module ExploderProps.

Import PyFacts AreaOfInterest AreaOfInterestFacts GeometryProps.
Import Health ExplodeWindowedHealthRecord.

Lemma getitem_Ok {A} (l : list A) i x : getitem l i = Ok x <-> l !! i = Some x.
Proof. unfold getitem. destruct (l !! i); split; congruence. Qed.

Lemma explode_one_Ok CI md e i r :
  explode_one CI md e i = Ok r ->
  ev_detection_scores e !! i = Some (detection_score r)
  /\ ev_detection_classes e !! i = Some (detection_class r)
  /\ CI !! detection_class r = Some (health_weight r)
  /\ health_score r = health_weight r * detection_score r
  /\ metadata r = md /\ ts r = ev_ts e /\ print_session r = ev_print_session e.
Proof.
  unfold explode_one. intros Hr.
  apply bind_Ok in Hr as (score & Hs & Hr).
  apply bind_Ok in Hr as (class & Hc & Hr).
  apply bind_Ok in Hr as (weight & Hw & Hr).
  inversion Hr; subst; simpl. apply getitem_Ok in Hs, Hc.
  unfold health_weight_of in Hw. destruct (CI !! class) eqn:Hlook; [|discriminate].
  injection Hw as ->. done.
Qed.

(** The records made from positions [s .. s+n-1] carry the scores and
    classes found there, in order. *)
Lemma explode_from CI md e s n rs :
  Py.for_each (explode_one CI md e) (seq s n) = Ok rs ->
  map detection_score rs = take n (drop s (ev_detection_scores e))
  /\ map detection_class rs = take n (drop s (ev_detection_classes e)).
Proof.
  revert s rs. induction n as [|n IH]; intros s rs Hrs; simpl in Hrs.
  - injection Hrs as <-. by rewrite !take_0.
  - apply bind_Ok in Hrs as (r & Hr & Hrs).
    apply bind_Ok in Hrs as (rs' & Hrs' & [= <-]).
    apply explode_one_Ok in Hr as (Hs & Hc & _).
    destruct (IH _ _ Hrs') as [IHs IHc].
    rewrite (drop_S _ _ _ Hs), (drop_S _ _ _ Hc). simpl.
    by rewrite IHs, IHc.
Qed.

Lemma explode_positions CI e window rs :
  process CI e window = Ok rs ->
  map detection_score rs
  = take (Z.to_nat (ev_num_detections e)) (ev_detection_scores e)
  /\ map detection_class rs
     = take (Z.to_nat (ev_num_detections e)) (ev_detection_classes e).
Proof.
  unfold process. intros Hrs.
  destruct (explode_from _ _ _ _ _ _ Hrs) as [Hs Hc].
  rewrite drop_0 in Hs. rewrite drop_0 in Hc. done.
Qed.

Lemma explode_weights CI e window rs :
  process CI e window = Ok rs ->
  Forall (fun r => CI !! detection_class r = Some (health_weight r)) rs.
Proof.
  unfold process. intros Hrs. apply for_each_Forall2 in Hrs.
  induction Hrs as [|i r idx rs' Hr _ IH]; [constructor|].
  constructor; [|done]. by apply explode_one_Ok in Hr as (_ & _ & Hw & _).
Qed.

Lemma explode_one_raise CI md e i ex :
  explode_one CI md e i = Raise ex ->
  (ex = IndexError
   /\ (length (ev_detection_scores e) <= i \/ length (ev_detection_classes e) <= i)%nat)
  \/ (ex = KeyError
      /\ exists c, ev_detection_classes e !! i = Some c /\ CI !! c = None).
Proof.
  unfold explode_one, getitem.
  destruct (ev_detection_scores e !! i) as [s|] eqn:Hs; simpl.
  - destruct (ev_detection_classes e !! i) as [c|] eqn:Hc; simpl.
    + unfold health_weight_of. destruct (CI !! c) eqn:Hw; simpl; [discriminate|].
      intros [= <-]. right. eauto.
    + intros [= <-]. left. split; [done|]. right. by apply lookup_ge_None.
  - intros [= <-]. left. split; [done|]. left. by apply lookup_ge_None.
Qed.

(** The records of an event: one per position below [num_detections],
    in order, with the score and class found at that position (entries
    beyond [num_detections] are ignored), the weight of that class from
    the table, health_score = weight * score, and the timestamp,
    session and window bounds of the event. *)
Theorem explode_records CI e window rs :
  process CI e window = Ok rs ->
  map detection_score rs
  = take (Z.to_nat (ev_num_detections e)) (ev_detection_scores e)
  /\ map detection_class rs
     = take (Z.to_nat (ev_num_detections e)) (ev_detection_classes e)
  /\ Forall (fun r =>
              CI !! detection_class r = Some (health_weight r)
              /\ health_score r = health_weight r * detection_score r
              /\ ts r = ev_ts e
              /\ print_session r = ev_print_session e
              /\ window_start (metadata r) = Some (w_start window)
              /\ window_end (metadata r) = Some (w_end window)) rs.
Proof.
  intros Hrs. destruct (explode_positions _ _ _ _ Hrs) as [Hs Hc].
  split_and!; try done. clear Hs Hc.
  unfold process in Hrs. apply for_each_Forall2 in Hrs.
  induction Hrs as [|i r idx rs' Hr _ IH]; [constructor|].
  constructor; [|done].
  apply explode_one_Ok in Hr as (_ & _ & Hw & Hh & -> & Ht & Hp). done.
Qed.

(** An event that lists three detections and counts two. *)
Lemma explode_records_witness :
  exists rs,
    process Examples.example_index
      (mkEvent "0.1.0" "session-a" 1 1 "device-1" 10 2
         [Examples.q 9 10; Examples.q 8 10; Examples.q 3 10] [1%Z; 2%Z; 1%Z])
      Examples.example_window = Ok rs
    /\ map detection_class rs = [1%Z; 2%Z]
    /\ Forall (fun r => health_score r = health_weight r * detection_score r) rs.
Proof.
  destruct (process Examples.example_index
              (mkEvent "0.1.0" "session-a" 1 1 "device-1" 10 2
                 [Examples.q 9 10; Examples.q 8 10; Examples.q 3 10] [1%Z; 2%Z; 1%Z])
              Examples.example_window) as [rs|ex] eqn:Hrs;
    [|vm_compute in Hrs; discriminate].
  exists rs. split; [reflexivity|].
  destruct (explode_records _ _ _ _ Hrs) as (_ & Hc & Hall).
  split; [exact Hc|].
  eapply Forall_impl; [exact Hall|]. intros r Hr. exact (proj1 (proj2 Hr)).
Defined.

(** A count beyond the end of the score or class array is an
    [IndexError], when no class is missing from the table. *)
Theorem explode_short_arrays CI e window :
  Forall (fun c => is_Some (CI !! c)) (ev_detection_classes e) ->
  (length (ev_detection_scores e) < Z.to_nat (ev_num_detections e)
   \/ length (ev_detection_classes e) < Z.to_nat (ev_num_detections e))%nat ->
  process CI e window = Raise IndexError.
Proof.
  intros Hin Hshort.
  destruct (process CI e window) as [rs|ex] eqn:Hp.
  - pose proof (for_each_length _ _ _ Hp) as Hlen. rewrite length_seq in Hlen.
    apply explode_positions in Hp as (Hs & Hc).
    apply (f_equal length) in Hs, Hc.
    rewrite length_map, length_take in Hs. rewrite length_map, length_take in Hc. lia.
  - f_equal. unfold process in Hp.
    apply for_each_raise in Hp as (i & _ & Hi).
    apply explode_one_raise in Hi as [[-> _]|[_ (c & Hc & Hnone)]]; [done|].
    rewrite Forall_forall in Hin.
    destruct (Hin c) as [w Hw]; [by eapply list_elem_of_lookup_2|congruence].
Qed.

Lemma explode_short_arrays_witness :
  process Examples.example_index
    (mkEvent "0.1.0" "session-a" 1 1 "device-1" 10 3
       [Examples.q 9 10; Examples.q 8 10] [1%Z; 2%Z])
    Examples.example_window
  = Raise IndexError.
Proof.
  apply explode_short_arrays.
  - repeat (apply Forall_cons_2; [vm_compute; eauto|]). apply Forall_nil_2.
  - left. vm_compute. lia.
Defined.

(** With arrays long enough for the count, a class at a counted
    position that is missing from the table makes the call a
    [KeyError]. *)
Theorem explode_unknown_class CI e window :
  (Z.to_nat (ev_num_detections e) <= length (ev_detection_scores e))%nat ->
  (Z.to_nat (ev_num_detections e) <= length (ev_detection_classes e))%nat ->
  ~ Forall (fun c => is_Some (CI !! c))
      (take (Z.to_nat (ev_num_detections e)) (ev_detection_classes e)) ->
  process CI e window = Raise KeyError.
Proof.
  intros Hs Hc Hnin.
  destruct (process CI e window) as [rs|ex] eqn:Hp.
  - destruct Hnin. pose proof (explode_weights _ _ _ _ Hp) as Hall.
    apply explode_positions in Hp as (_ & Hcl).
    rewrite <-Hcl. apply Forall_fmap. eapply Forall_impl; [exact Hall|].
    intros r Hw. simpl. by rewrite Hw.
  - f_equal. unfold process in Hp.
    apply for_each_raise in Hp as (i & Hi' & Hi).
    apply elem_of_seq in Hi' as [_ Hi'].
    apply explode_one_raise in Hi as [[_ Hlen]|[-> _]]; [lia|done].
Qed.

Lemma explode_unknown_class_witness :
  process Examples.example_index
    (mkEvent "0.1.0" "session-a" 1 1 "device-1" 10 2
       [Examples.q 9 10; Examples.q 8 10] [1%Z; 9%Z])
    Examples.example_window
  = Raise KeyError.
Proof.
  apply explode_unknown_class.
  - vm_compute. lia.
  - vm_compute. lia.
  - intros Hall. vm_compute in Hall.
    inversion Hall as [|?? _ Hall']. inversion Hall' as [|?? [w Hw] _].
    discriminate Hw.
Defined.

(** Filter, then explode: an event that carries the arrays and the
    count of a filter output explodes without error into one record per
    retained detection, with the scores and classes of the output, the
    weights that the filter attached, and every score above the
    threshold. *)
Theorem explode_after_filter CI ann mo thr out e window :
  filter_box_annotations CI ann None mo thr = Ok out ->
  ev_detection_scores e = detection_scores out ->
  ev_detection_classes e = detection_classes out ->
  ev_num_detections e = num_detections out ->
  exists rs,
    process CI e window = Ok rs
    /\ map detection_score rs = detection_scores out
    /\ map detection_class rs = detection_classes out
    /\ map health_weight rs = health_weights out
    /\ Forall (fun r => thr < detection_score r) rs.
Proof.
  intros Hout Hs Hc Hn.
  destruct (filter_box_annotations_lengths CI ann None mo thr out Hout)
    as (Hnum & _ & Hlc & Hlw).
  assert (Hn' : Z.to_nat (ev_num_detections e) = length (detection_scores out)).
  { rewrite Hn, Hnum. apply Nat2Z.id. }
  unfold filter_box_annotations in Hout. simpl in Hout.
  apply bind_Ok in Hout as (bs & _ & Hout).
  apply bind_Ok in Hout as (ss & Hss & Hout).
  apply bind_Ok in Hout as (cs & _ & Hout).
  apply bind_Ok in Hout as (ws & Hws & [= <-]). simpl in *.
  assert (Hthr : Forall (fun s => thr < s) ss).
  { unfold Np.mask_select in Hss. case_bool_decide; [|discriminate].
    injection Hss as <-. unfold Np.select.
    apply Forall_forall. intros s Hin.
    apply list_elem_of_fmap in Hin as ([s' b] & -> & Hin).
    apply list_elem_of_filter in Hin as [Hb Hin]. simpl in *. subst b.
    apply elem_of_lookup_zip_with in Hin as (i & x & y & [= <- <-] & Hx & Hy).
    rewrite list_lookup_fmap, Hx in Hy. simpl in Hy. injection Hy as Hy.
    by apply bool_decide_eq_true_1 in Hy. }
  apply for_each_Forall2 in Hws.
  destruct (process CI e window) as [rs|ex] eqn:Hp.
  - exists rs. split; [done|].
    pose proof (explode_weights _ _ _ _ Hp) as Hall.
    apply explode_positions in Hp as (Hrs & Hrc).
    rewrite Hs, Hn', firstn_all in Hrs.
    rewrite Hc, Hn', <-Hlc, firstn_all in Hrc.
    split_and!; try done.
    + clear Hthr Hlw Hlc Hn' Hnum Hrs. revert ws Hws. rewrite <-Hrc. clear -Hall.
      induction Hall as [|r rs Hw _ IH]; intros ws Hws; simpl in *.
      * by inversion Hws.
      * inversion Hws as [|c w cs ws' Hcw Hws']; subst.
        rewrite (IH ws' Hws'). f_equal.
        unfold health_weight_of in Hcw. rewrite Hw in Hcw. congruence.
    + rewrite <-Hrs in Hthr. clear -Hthr.
      induction rs as [|r rs IH]; [constructor|].
      inversion Hthr; subst. constructor; [done|by apply IH].
  - exfalso. unfold process in Hp.
    apply for_each_raise in Hp as (i & Hi' & Hi).
    apply elem_of_seq in Hi' as [_ Hi']. simpl in Hi'.
    apply explode_one_raise in Hi as [[_ Hlen]|[_ (c & Hci & Hnone)]].
    + rewrite Hs, Hc in Hlen. lia.
    + rewrite Hc in Hci.
      destruct (Forall2_lookup_l _ _ _ _ _ Hws Hci) as (w & _ & Hw).
      unfold health_weight_of in Hw. by rewrite Hnone in Hw.
Qed.

(** The scenario of section 8: filter [0.9, 0.8, 0.3] at 0.66, explode
    the two retained detections. *)
Lemma explode_after_filter_witness :
  exists rs,
    process Examples.example_index Examples.example_event Examples.example_window
    = Ok rs
    /\ map detection_class rs = [1%Z; 2%Z]
    /\ Forall (fun r => default_min_score_threshold < detection_score r) rs.
Proof.
  destruct (explode_after_filter Examples.example_index Examples.three_detections
              default_min_calibration_area_overlap default_min_score_threshold
              (mkBoxAnnotations 2 [Examples.q 9 10; Examples.q 8 10]
                 [Examples.inner_box; Examples.inner_box] [1%Z; 2%Z]
                 [Examples.q 1 1; Examples.q (-1) 1])
              Examples.example_event Examples.example_window
              eq_refl eq_refl eq_refl eq_refl)
    as (rs & Hrs & _ & Hc & _ & Hthr).
  exists rs. split; [exact Hrs|]. split; [exact Hc|exact Hthr].
Defined.

End ExploderProps.

(** ** The Series of [health_score_trend_polynomial_v1] *)

Module TrajectoryProps.

Import PyFacts PdFacts Health TrendSpec TrendFacts.

Lemma index_trajectory_over tss rows :
  Pd.index (trajectory_over tss rows) = tss.
Proof.
  unfold Pd.index, trajectory_over. apply fst_zip.
  by rewrite running_sum_length, length_map.
Qed.

Lemma values_trajectory_over tss rows :
  Pd.values (trajectory_over tss rows)
  = Pd.running_sum 0 (map (per_timestamp_value rows) tss).
Proof.
  unfold Pd.values, trajectory_over. apply snd_zip.
  by rewrite running_sum_length, length_map.
Qed.

Lemma Sorted_le_NoDup_lt (l : list Z) :
  Sorted Z.le l -> NoDup l -> Sorted Z.lt l.
Proof.
  intros Hs Hnd. apply Sorted_StronglySorted in Hs; [|apply _].
  induction Hs as [|x l Hs IH Hall]; [constructor|].
  apply NoDup_cons in Hnd as [Hx Hnd]. constructor; [by apply IH|].
  destruct l as [|y l]; constructor.
  inversion Hall as [|?? Hxy _]; subst.
  assert (x <> y) by (intros ->; apply Hx; left). lia.
Qed.

Lemma Sorted_consecutive {A} (R : relation A) l i a b :
  Sorted R l -> l !! i = Some a -> l !! S i = Some b -> R a b.
Proof.
  intros Hs. revert i. induction Hs as [|x l Hs IH Hhd]; intros i Ha Hb; [done|].
  destruct i as [|i]; simpl in *.
  - injection Ha as ->. destruct l as [|y l]; [done|]. simpl in Hb.
    injection Hb as ->. by inversion Hhd.
  - by eapply IH.
Qed.

Lemma distinct_timestamps_lt rows : Sorted Z.lt (distinct_timestamps rows).
Proof.
  apply Sorted_le_NoDup_lt; [apply Sorted_sorted_unique|apply NoDup_sorted_unique].
Qed.

Lemma running_sum_lookup_S acc l i a v :
  Pd.running_sum acc l !! i = Some a -> l !! S i = Some v ->
  Pd.running_sum acc l !! S i = Some (a + v).
Proof.
  revert acc i. induction l as [|x l IH]; intros acc i Ha Hv; [done|].
  destruct i as [|i]; simpl in *.
  - injection Ha as <-. destruct l as [|y l]; [done|]. simpl in *.
    by injection Hv as ->.
  - by apply IH.
Qed.

Lemma running_sum_nondecreasing acc l :
  Forall (fun v => 0 <= v) l ->
  Sorted Qcle (Pd.running_sum acc l)
  /\ Forall (fun c => acc <= c) (Pd.running_sum acc l).
Proof.
  intros Hl. revert acc.
  induction Hl as [|v l Hv _ IH]; intros acc; simpl; [by split; constructor|].
  assert (Hstep : acc <= acc + v).
  { rewrite <-(Qcplus_0_r acc) at 1. apply Qcplus_le_compat; [apply Qcle_refl|done]. }
  destruct (IH (acc + v)) as [Hs Hb]. split.
  - constructor; [done|]. destruct l as [|w l]; simpl; constructor.
    by inversion Hb.
  - constructor; [done|]. eapply Forall_impl; [exact Hb|].
    intros c Hc. by apply Qcle_trans with (acc + v).
Qed.

Lemma reduce_nonneg f l :
  (forall a b, f a b = a \/ f a b = b) ->
  Forall (fun x => 0 <= x) l -> 0 <= Pd.reduce f l.
Proof.
  intros Hpick Hall. destruct l as [|x l]; [apply Qcle_refl|]. simpl.
  inversion Hall as [|?? Hx Hl]; subst. clear Hall. revert x Hx.
  induction Hl as [|y l Hy _ IH]; intros x Hx; simpl; [done|].
  apply IH. by destruct (Hpick x y) as [-> | ->].
Qed.

Lemma per_timestamp_value_nonneg rows t :
  Forall (fun r => 0 <= health_score r) rows -> 0 <= per_timestamp_value rows t.
Proof.
  intros Hall. unfold per_timestamp_value, positive, negative.
  rewrite <-(Qcplus_0_l 0) at 1. apply Qcplus_le_compat.
  - apply (reduce_nonneg Py.max); [apply max_pick|].
    apply Forall_fmap, Forall_forall. intros r Hr.
    apply list_elem_of_filter in Hr as [_ Hr].
    rewrite Forall_forall in Hall. by apply Hall.
  - apply (reduce_nonneg Py.min); [apply min_pick|].
    apply Forall_fmap, Forall_forall. intros r Hr.
    apply list_elem_of_filter in Hr as [_ Hr].
    rewrite Forall_forall in Hall. by apply Hall.
Qed.

(** The index of the Series is strictly ascending (no timestamp twice)
    and holds exactly the timestamps at which some record has a nonzero
    weight. *)
Theorem xy_series_index df :
  Sorted Z.lt (Pd.index (xy_series df))
  /\ (forall t, t ∈ Pd.index (xy_series df)
                <-> exists r, r ∈ df /\ ts r = t /\ health_weight r <> 0).
Proof.
  rewrite xy_series_spec, index_trajectory_over. split.
  - apply distinct_timestamps_lt.
  - intros t. unfold distinct_timestamps, weighted.
    rewrite elem_of_sorted_unique, list_elem_of_fmap.
    setoid_rewrite list_elem_of_filter. split.
    + intros (r & -> & Hw & Hin). eauto.
    + intros (r & Hin & <- & Hw). eauto.
Qed.

(** From one entry of the Series to the next the timestamp grows and
    the value grows by the per-timestamp value of the later timestamp;
    the first entry is the per-timestamp value of the first timestamp. *)
Theorem xy_series_steps df i t1 c1 t2 c2 :
  xy_series df !! i = Some (t1, c1) ->
  xy_series df !! S i = Some (t2, c2) ->
  (t1 < t2)%Z
  /\ c2 = c1 + per_timestamp_value df t2
  /\ head (xy_series df)
     = (fun t => (t, per_timestamp_value df t)) <$> head (Pd.index (xy_series df)).
Proof.
  rewrite xy_series_spec, index_trajectory_over.
  set (tss := distinct_timestamps (weighted df)).
  unfold trajectory_over. intros H1 H2.
  apply lookup_zip_with_Some in H1 as (? & ? & [= <- <-] & Ht1 & Hc1).
  apply lookup_zip_with_Some in H2 as (? & ? & [= <- <-] & Ht2 & Hc2).
  split_and!.
  - apply (Sorted_consecutive Z.lt tss i); [|done..]. apply distinct_timestamps_lt.
  - erewrite running_sum_lookup_S in Hc2;
      [|exact Hc1|by rewrite list_lookup_fmap, Ht2].
    by injection Hc2.
  - destruct tss as [|t0 tss']; [done|]. simpl. by rewrite Qcplus_0_l.
Qed.

Lemma xy_series_steps_witness :
  exists t1 c1 t2 c2,
    xy_series Examples.four_ts_window !! 0%nat = Some (t1, c1)
    /\ xy_series Examples.four_ts_window !! 1%nat = Some (t2, c2)
    /\ (t1 < t2)%Z
    /\ c2 = c1 + per_timestamp_value Examples.four_ts_window t2.
Proof.
  destruct (xy_series Examples.four_ts_window !! 0%nat) as [[t1 c1]|] eqn:H1;
    [|vm_compute in H1; discriminate].
  destruct (xy_series Examples.four_ts_window !! 1%nat) as [[t2 c2]|] eqn:H2;
    [|vm_compute in H2; discriminate].
  exists t1, c1, t2, c2. split; [reflexivity|]. split; [reflexivity|].
  destruct (xy_series_steps Examples.four_ts_window 0 t1 c1 t2 c2 H1 H2)
    as (Hlt & Hstep & _).
  split; [exact Hlt|exact Hstep].
Defined.

(** Where no record has a negative health score the trajectory never
    falls and never goes below 0. *)
Theorem xy_series_nondecreasing df :
  Forall (fun r => 0 <= health_score r) df ->
  Sorted Qcle (Pd.values (xy_series df))
  /\ Forall (fun c => 0 <= c) (Pd.values (xy_series df)).
Proof.
  intros Hall. rewrite xy_series_spec, values_trajectory_over.
  apply running_sum_nondecreasing.
  apply Forall_fmap, Forall_forall. intros t _.
  by apply per_timestamp_value_nonneg.
Qed.

Lemma xy_series_nondecreasing_witness :
  Sorted Qcle (Pd.values (xy_series Examples.short_window))
  /\ Forall (fun c => 0 <= c) (Pd.values (xy_series Examples.short_window)).
Proof.
  apply (xy_series_nondecreasing Examples.short_window).
  repeat (apply Forall_cons_2; [vm_compute; discriminate|]). apply Forall_nil_2.
Defined.

End TrajectoryProps.

(** ** [SortWindowedHealthDataframe.process], beyond the claims *)

Module AggregatorProps.

Import PyFacts PdFacts Health TrendSpec TrendFacts AggregatorFacts.
Import SortWindowedHealthDataframe.

Lemma xy_series_Permutation df1 df2 : df1 ≡ₚ df2 -> xy_series df1 = xy_series df2.
Proof. intros Hp. rewrite !xy_series_spec. by apply trajectory_Permutation. Qed.

Section WithPolynomial.

Context `{PolynomialApi}.

(** The call on a non-empty batch, with the sorted frame spelled out. *)
Lemma process_unfold self key r records window :
  process self (key, r :: records) window
  = let df := merge_sort ts_le (r :: records) in
    if bool_decide (Z.of_nat (length (r :: records)) < warmup self)%Z
    then mkOutcome [] [] None
    else
      match fit (Pd.index (xy_series df)) (Pd.values (xy_series df))
                (polyfit_degree self) with
      | Raise e =>
          if Py.is_ValueError e
          then mkOutcome [] [LogError e fatal_msg] None
          else raising e
      | Ok trend =>
          match df with
          | [] => raising IndexError
          | first :: _ =>
              mkOutcome
                [(key,
                  {| t_print_session := key;
                     poly_coef := coef trend;
                     poly_domain := domain trend;
                     poly_roots := roots trend;
                     poly_degree := degree trend;
                     t_cumsum := Pd.values (xy_series df);
                     t_metadata := metadata first;
                     t_health_score := map health_score df;
                     t_health_weight := map health_weight df;
                     t_detection_class := map detection_class df;
                     t_detection_score := map detection_score df |})]
                [LogInfo emitting_msg (w_start window) (w_end window)]
                None
          end
      end.
Proof.
  unfold process. cbn [sorted_frame].
  rewrite (Permutation_length (merge_sort_Permutation ts_le (r :: records))).
  case_bool_decide; [done|].
  unfold health_score_trend_polynomial_v1.
  destruct (fit _ _ _) as [trend|e]; simpl; [|done].
  by destruct (merge_sort ts_le (r :: records)).
Qed.

(** The order in which the records of a window arrive does not change
    the trend: the key, the trajectory and the fitted polynomial of the
    emitted element are the same, and so is the exception, if any. *)
Theorem process_order_independent self key records records' window :
  records ≡ₚ records' ->
  map (fun kt => (fst kt, t_cumsum (snd kt), poly_coef (snd kt),
                  poly_domain (snd kt), poly_roots (snd kt), poly_degree (snd kt)))
      (emitted (process self (key, records) window))
  = map (fun kt => (fst kt, t_cumsum (snd kt), poly_coef (snd kt),
                    poly_domain (snd kt), poly_roots (snd kt), poly_degree (snd kt)))
        (emitted (process self (key, records') window))
  /\ raised (process self (key, records) window)
     = raised (process self (key, records') window).
Proof.
  intros Hp.
  destruct records as [|r records], records' as [|r' records'].
  - done.
  - by apply Permutation_nil_l in Hp.
  - by apply Permutation_nil_r in Hp.
  - rewrite !process_unfold. cbn zeta.
    rewrite (Permutation_length Hp).
    case_bool_decide; [done|].
    assert (Hxy : xy_series (merge_sort ts_le (r :: records))
                  = xy_series (merge_sort ts_le (r' :: records'))).
    { apply xy_series_Permutation. by rewrite !merge_sort_Permutation. }
    rewrite Hxy.
    destruct (fit _ _ _) as [trend|e]; [|by destruct (Py.is_ValueError e)].
    destruct (merge_sort ts_le (r :: records)) as [|f1 df1] eqn:H1.
    { apply (f_equal length) in H1.
      rewrite (Permutation_length (merge_sort_Permutation _ _)) in H1. done. }
    destruct (merge_sort ts_le (r' :: records')) as [|f2 df2] eqn:H2.
    { apply (f_equal length) in H2.
      rewrite (Permutation_length (merge_sort_Permutation _ _)) in H2. done. }
    done.
Qed.

(** Every emitted element lists each record of the window once, in
    ascending timestamp order and aligned across its four per-record
    arrays; it is keyed and labelled with the session key, and its
    metadata is that of a record with the earliest timestamp. *)
Theorem emitted_arrays self key records window kt :
  kt ∈ emitted (process self (key, records) window) ->
  exists first df,
    first :: df ≡ₚ records
    /\ Sorted ts_le (first :: df)
    /\ Forall (fun r => (ts first <= ts r)%Z) records
    /\ fst kt = key
    /\ t_print_session (snd kt) = key
    /\ t_metadata (snd kt) = metadata first
    /\ t_health_score (snd kt) = map health_score (first :: df)
    /\ t_health_weight (snd kt) = map health_weight (first :: df)
    /\ t_detection_class (snd kt) = map detection_class (first :: df)
    /\ t_detection_score (snd kt) = map detection_score (first :: df).
Proof.
  destruct records as [|r records]; [by intros ?%elem_of_nil|].
  rewrite process_unfold. cbn zeta.
  case_bool_decide; [by intros ?%elem_of_nil|].
  destruct (fit _ _ _) as [trend|e];
    [|by destruct (Py.is_ValueError e); intros ?%elem_of_nil].
  pose proof (merge_sort_Permutation ts_le (r :: records)) as Hperm.
  pose proof (sorted_frame_Sorted (r :: records) _ eq_refl) as Hsorted.
  destruct (merge_sort ts_le (r :: records)) as [|first df]; [by intros ?%elem_of_nil|].
  intros ->%list_elem_of_singleton. exists first, df. simpl.
  split_and!; try done.
  apply Sorted_StronglySorted in Hsorted; [|intros a b c; unfold ts_le; lia].
  inversion Hsorted as [|?? _ Hall]; subst.
  rewrite <-Hperm. constructor; [lia|done].
Qed.

(** At or above the warm-up threshold, a successful fit yields exactly
    one element, with the coefficients, domain, roots and degree of the
    fitted polynomial and one array entry per record, one info log line
    and no exception. *)
Theorem process_success self key records window df trend :
  sorted_frame records = Ok df ->
  (warmup self <= Z.of_nat (length df))%Z ->
  fit (Pd.index (xy_series df)) (Pd.values (xy_series df)) (polyfit_degree self)
  = Ok trend ->
  exists t,
    process self (key, records) window
    = mkOutcome [(key, t)] [LogInfo emitting_msg (w_start window) (w_end window)] None
    /\ poly_coef t = coef trend /\ poly_domain t = domain trend
    /\ poly_roots t = roots trend /\ poly_degree t = degree trend
    /\ length (t_health_score t) = length records.
Proof.
  intros Hdf Hw Hfit. unfold process. rewrite Hdf.
  rewrite bool_decide_eq_false_2 by lia.
  unfold health_score_trend_polynomial_v1. rewrite Hfit. simpl.
  pose proof (sorted_frame_Permutation _ _ Hdf) as Hperm.
  destruct df as [|first df].
  { destruct records; [discriminate|]. by apply Permutation_nil_l in Hperm. }
  simpl. eexists. split; [done|]. simpl. split_and!; try done.
  by rewrite length_map, <-(Permutation_length Hperm).
Qed.

(** Only [ValueError] is caught: any other exception of the fit leaves
    the call as it is, with nothing emitted and nothing logged. *)
Theorem fit_error_propagates self key records window df e :
  sorted_frame records = Ok df ->
  (warmup self <= Z.of_nat (length df))%Z ->
  fit (Pd.index (xy_series df)) (Pd.values (xy_series df)) (polyfit_degree self)
  = Raise e ->
  Py.is_ValueError e = false ->
  process self (key, records) window = mkOutcome [] [] (Some e).
Proof.
  intros Hdf Hw Hfit He. unfold process. rewrite Hdf.
  rewrite bool_decide_eq_false_2 by lia.
  unfold health_score_trend_polynomial_v1. rewrite Hfit. simpl. by rewrite He.
Qed.

End WithPolynomial.

Lemma process_order_independent_witness :
  map (fun kt => (fst kt, t_cumsum (snd kt), poly_coef (snd kt),
                  poly_domain (snd kt), poly_roots (snd kt), poly_degree (snd kt)))
      (emitted (process (H := Examples.RecordingFit) (__init__ 3 1)
                  ("session-a", Examples.four_ts_window) Examples.example_window))
  = map (fun kt => (fst kt, t_cumsum (snd kt), poly_coef (snd kt),
                    poly_domain (snd kt), poly_roots (snd kt), poly_degree (snd kt)))
        (emitted (process (H := Examples.RecordingFit) (__init__ 3 1)
                    ("session-a", reverse Examples.four_ts_window)
                    Examples.example_window))
  /\ raised (process (H := Examples.RecordingFit) (__init__ 3 1)
               ("session-a", Examples.four_ts_window) Examples.example_window)
     = raised (process (H := Examples.RecordingFit) (__init__ 3 1)
                 ("session-a", reverse Examples.four_ts_window)
                 Examples.example_window).
Proof.
  apply (process_order_independent (H := Examples.RecordingFit)
           (__init__ 3 1) "session-a" Examples.four_ts_window
           (reverse Examples.four_ts_window) Examples.example_window).
  symmetry. apply reverse_Permutation.
Defined.

Lemma emitted_arrays_witness :
  length (emitted (process (H := Examples.RecordingFit) (__init__ 3 1)
                     ("session-a", Examples.four_ts_window) Examples.example_window))
  = 1%nat
  /\ Forall (fun kt =>
              exists first df,
                first :: df ≡ₚ Examples.four_ts_window
                /\ Sorted ts_le (first :: df)
                /\ t_metadata (snd kt) = metadata first
                /\ t_health_score (snd kt) = map health_score (first :: df))
       (emitted (process (H := Examples.RecordingFit) (__init__ 3 1)
                   ("session-a", Examples.four_ts_window) Examples.example_window)).
Proof.
  split; [vm_compute; reflexivity|].
  apply Forall_forall. intros kt Hin.
  destruct (emitted_arrays (H := Examples.RecordingFit) (__init__ 3 1) "session-a"
              Examples.four_ts_window Examples.example_window kt Hin)
    as (first & df & Hp & Hs & _ & _ & _ & Hm & Hh & _).
  exists first, df. repeat split; assumption.
Defined.

Lemma process_success_witness :
  exists t,
    process (H := Examples.RecordingFit) (__init__ 3 1)
      ("session-a", Examples.four_ts_window) Examples.example_window
    = mkOutcome [("session-a", t)] [LogInfo emitting_msg 0 30] None
    /\ poly_degree t = 1%Z
    /\ length (t_health_score t) = 4%nat.
Proof.
  destruct (process_success (H := Examples.RecordingFit) (__init__ 3 1) "session-a"
              Examples.four_ts_window Examples.example_window
              (merge_sort ts_le Examples.four_ts_window)
              (Examples.mkFit
                 (Pd.index (xy_series (merge_sort ts_le Examples.four_ts_window)))
                 (Pd.values (xy_series (merge_sort ts_le Examples.four_ts_window)))
                 1))
    as (t & Ht & _ & _ & _ & Hd & Hl).
  - reflexivity.
  - vm_compute. discriminate.
  - vm_compute. reflexivity.
  - exists t. split; [exact Ht|]. split; [exact Hd|exact Hl].
Defined.

(** Three records of weight 0 leave the Series empty; a fit that
    rejects the empty input with a [TypeError] ends the call. *)
Lemma fit_error_propagates_witness :
  process (H := Examples.NonemptyFit) (__init__ 3 1)
    ("session-a", Examples.neutral_window) Examples.example_window
  = mkOutcome [] [] (Some Py.TypeError).
Proof.
  apply (fit_error_propagates (H := Examples.NonemptyFit) (__init__ 3 1)
           "session-a" Examples.neutral_window Examples.example_window
           (merge_sort ts_le Examples.neutral_window) Py.TypeError).
  - reflexivity.
  - vm_compute. discriminate.
  - vm_compute. reflexivity.
  - reflexivity.
Defined.

End AggregatorProps.

(** ** Repeated firings and the order of arrival *)

Module AggregatorOrder.

Import PyFacts PdFacts Health TrendSpec TrendFacts AggregatorFacts AggregatorProps.
Import SortWindowedHealthDataframe.

Section WithPolynomial.

Context `{PolynomialApi}.


End WithPolynomial.



End AggregatorOrder.

(** ** [MonitorHealthStateful.process]: what is logged *)

Module MonitorProps.

Import Health MonitorHealthStateful MonitorFacts.

(** The failure count that a firing logs is read before the increment:
    it is the count the store held for that key plus the number of
    earlier firings for the same key, this firing excluded. *)
Theorem logged_failures {V} self store (history : list (firing V))
    key (values : V) pane_info window :
  logged (snd (fire self (run self store history)
                 ((key, values), pane_info, window)))
  = [LogInfo received_msg (w_start window) (w_end window);
     LogPane pane_info window
       (counter store key
        + Z.of_nat (length (filter (fun g => firing_key g = key) history)))%Z].
Proof.
  unfold fire. cbn [fst snd process logged].
  do 2 f_equal. f_equal. apply run_counter.
Qed.

End MonitorProps.

(** ** [CreateVideoRenderMessage.process]: the paths of the message *)

Module RenderProps.

Import Health CreateVideoRenderMessage.

Lemma append_String c a b :
  String.append (String c a) b = String c (String.append a b).
Proof. reflexivity. Qed.

Lemma append_nil_l b : String.append "" b = b.
Proof. reflexivity. Qed.

Lemma append_nil_r s : String.append s "" = s.
Proof. induction s as [|c s IH]; [done|]. by rewrite append_String, IH. Qed.

Lemma append_assoc a b c :
  String.append (String.append a b) c = String.append a (String.append b c).
Proof.
  induction a as [|x a IH]; [done|]. by rewrite !append_String, IH.
Qed.

Lemma prefix_iff a s : String.prefix a s = true <-> exists t, s = String.append a t.
Proof.
  revert s. induction a as [|x a IH]; intros s.
  - split; [intros _; by exists s|by destruct s].
  - destruct s as [|y s].
    { split; [intros Hp; vm_compute in Hp; discriminate|].
      intros [t Ht]. rewrite append_String in Ht. discriminate. }
    cbn [String.prefix].
    destruct (Ascii.ascii_dec x y) as [->|Hne].
    + rewrite IH. split; intros [t Ht]; exists t.
      * by rewrite append_String, Ht.
      * rewrite append_String in Ht. congruence.
    + split; [done|]. intros [t Ht]. rewrite append_String in Ht. congruence.
Qed.

Lemma absolute_append a b :
  a <> "" -> String.prefix "/" (String.append a b) = String.prefix "/" a.
Proof.
  intros Ha. destruct a as [|c a]; [done|].
  rewrite append_String. cbn [String.prefix].
  destruct (Ascii.ascii_dec _ c); [|done].
  destruct (String.append a b); by destruct a.
Qed.

Lemma endswith_sep_String c s :
  Os.endswith_sep (String c s)
  = match s with
    | EmptyString =>
        bool_decide (c = Ascii.Ascii true true true true false true false false)
    | _ => Os.endswith_sep s
    end.
Proof.
  unfold Os.endswith_sep. destruct s as [|d s]; [done|].
  cbn [String.length]. by rewrite !Nat.sub_succ, !Nat.sub_0_r.
Qed.

Lemma endswith_sep_append a b :
  b <> "" -> Os.endswith_sep (String.append a b) = Os.endswith_sep b.
Proof.
  intros Hb. induction a as [|c a IH]; [done|].
  rewrite append_String, endswith_sep_String.
  destruct (String.append a b) eqn:Hab; [|done].
  destruct a; [rewrite append_nil_l in Hab; congruence|].
  rewrite append_String in Hab. discriminate.
Qed.

(** Joining a component that is not absolute appends it, after a
    separator where the path needs one. *)
Lemma join2_relative a b :
  String.prefix "/" b = false ->
  Os.join2 a b
  = String.append
      (if bool_decide (a = "") || Os.endswith_sep a then a else String.append a "/") b.
Proof.
  intros Hb. unfold Os.join2. rewrite Hb.
  destruct (_ || _); [done|]. by rewrite append_assoc.
Qed.

(** Joining an absolute component discards the path so far. *)
Lemma join2_absolute a b : String.prefix "/" b = true -> Os.join2 a b = b.
Proof. intros Hb. unfold Os.join2. by rewrite Hb. Qed.

Lemma absolute_join2 a b :
  String.prefix "/" (Os.join2 a b) = String.prefix "/" b || String.prefix "/" a.
Proof.
  destruct (String.prefix "/" b) eqn:Hb.
  - by rewrite join2_absolute.
  - rewrite join2_relative by done. cbn [orb].
    destruct a as [|c a].
    + rewrite bool_decide_eq_true_2 by done. cbn [orb].
      by rewrite append_nil_l, Hb.
    + destruct (_ || _); [by rewrite absolute_append|].
      rewrite absolute_append; [by rewrite absolute_append|].
      rewrite append_String. discriminate.
Qed.

Lemma join2_assoc a b c :
  Os.join2 (Os.join2 a b) c = Os.join2 a (Os.join2 b c).
Proof.
  destruct (String.prefix "/" c) eqn:Hc.
  { rewrite (join2_absolute _ c), (join2_absolute b c) by done.
    by rewrite join2_absolute. }
  destruct (String.prefix "/" b) eqn:Hb.
  { rewrite (join2_absolute a b) by done.
    rewrite (join2_absolute a); [done|]. by rewrite absolute_join2, Hb, orb_true_r. }
  rewrite (join2_relative a (Os.join2 b c)) by (by rewrite absolute_join2, Hb, Hc).
  rewrite (join2_relative b c), (join2_relative a b) by done.
  rewrite join2_relative by done.
  destruct b as [|y b].
  - rewrite !append_nil_r.
    rewrite (bool_decide_eq_true_2 ("" = "")) by done. cbn [orb].
    rewrite append_nil_l.
    destruct (bool_decide (a = "") || Os.endswith_sep a) eqn:Ha.
    + by rewrite Ha.
    + rewrite endswith_sep_append by done.
      replace (Os.endswith_sep "/") with true by done.
      by rewrite orb_true_r.
  - set (lead := if bool_decide (a = "") || Os.endswith_sep a then a
                 else String.append a "/").
    rewrite endswith_sep_append by done.
    assert (Hne : String.append lead (String y b) <> "").
    { destruct lead; discriminate. }
    rewrite (bool_decide_eq_false_2 _ Hne).
    rewrite (bool_decide_eq_false_2 (String y b = "")) by done. simpl.
    destruct (Os.endswith_sep (String y b)); by rewrite !append_assoc.
Qed.

Lemma path_join_cons a b p : Os.path_join a (b :: p) = Os.path_join (Os.join2 a b) p.
Proof. done. Qed.

(** A joined path used as the last component can be joined component
    by component instead. *)
Lemma path_join_assoc a b p :
  Os.path_join a (Os.path_join b p :: []) = Os.path_join a (b :: p).
Proof.
  unfold Os.path_join. simpl. revert a b.
  induction p as [|c p IH]; intros a b; simpl; [done|].
  by rewrite IH, join2_assoc.
Qed.

Lemma path_join_flatten a l b p :
  Os.path_join a (l ++ [Os.path_join b p]) = Os.path_join a (l ++ b :: p).
Proof.
  unfold Os.path_join. rewrite !foldl_app. apply path_join_assoc.
Qed.

Lemma path_join_flatten2 a u b p :
  Os.path_join a [u; Os.path_join b p] = Os.path_join a (u :: b :: p).
Proof. exact (path_join_flatten a [u] b p). Qed.

Lemma path_join_absolute a p :
  String.prefix "/" a = true -> String.prefix "/" (Os.path_join a p) = true.
Proof.
  unfold Os.path_join. revert a. induction p as [|b p IH]; intros a Ha; [done|].
  simpl. apply IH. by rewrite absolute_join2, Ha, orb_true_r.
Qed.

Lemma prefix_join2 a b :
  String.prefix "/" b = false -> String.prefix a (Os.join2 a b) = true.
Proof.
  intros Hb. rewrite join2_relative by done. apply prefix_iff.
  destruct (_ || _); [eauto|]. rewrite append_assoc. eauto.
Qed.

Lemma prefix_trans a b c :
  String.prefix a b = true -> String.prefix b c = true -> String.prefix a c = true.
Proof.
  rewrite !prefix_iff. intros [t ->] [u ->]. rewrite append_assoc. eauto.
Qed.

Lemma prefix_path_join a p :
  Forall (fun b => String.prefix "/" b = false) p ->
  String.prefix a (Os.path_join a p) = true.
Proof.
  unfold Os.path_join. intros Hp. revert a.
  induction Hp as [|b p Hb _ IH]; intros a; simpl.
  - apply prefix_iff. exists "". by rewrite append_nil_r.
  - eapply prefix_trans; [by apply prefix_join2|apply IH].
Qed.

(** The two CDN paths of a message agree: the absolute one is the CDN
    base joined with the relative one, and the relative one is the
    upload path, the key, the date and the file name joined in turn. *)
Theorem cdn_output_from_relative self datestamp key v values window pane_info msg :
  msg ∈ emitted (process self datestamp (key, v :: values) window pane_info) ->
  cdn_output msg = Os.path_join (cdn_base_path self) [cdn_relative msg]
  /\ cdn_relative msg
     = Os.path_join (cdn_upload_path self) [key; datestamp; "annotated_video.mp4"].
Proof.
  intros Hin. apply list_elem_of_singleton in Hin. subst msg.
  cbn [cdn_output cdn_relative]. split.
  - by rewrite path_join_assoc, path_join_flatten2.
  - by rewrite path_join_assoc.
Qed.

Lemma cdn_output_from_relative_witness :
  Forall (fun msg =>
            cdn_output msg = "https://cdn.example/media/session-a/2021/03/01/annotated_video.mp4"
            /\ cdn_output msg
               = Os.path_join (cdn_base_path Examples.example_renderer) [cdn_relative msg])
    (emitted (process Examples.example_renderer "2021/03/01"
                ("session-a", [Examples.example_event])
                Examples.example_window Examples.final_pane)).
Proof.
  apply Forall_forall. intros msg Hin.
  split.
  - apply list_elem_of_singleton in Hin. subst msg. vm_compute. reflexivity.
  - exact (proj1 (cdn_output_from_relative Examples.example_renderer "2021/03/01"
                    "session-a" Examples.example_event [] Examples.example_window
                    Examples.final_pane msg Hin)).
Defined.

(** A session key that starts with "/" takes the place of every base
    path: the input path is the key itself, and neither the output
    base, the CDN base nor the upload path appears in the message. *)
Theorem absolute_key_drops_bases self datestamp key v values window pane_info msg :
  String.prefix "/" key = true ->
  msg ∈ emitted (process self datestamp (key, v :: values) window pane_info) ->
  gcs_input msg = key
  /\ gcs_output msg = Os.path_join key ["annotated_video.mp4"]
  /\ cdn_relative msg = Os.path_join key [datestamp; "annotated_video.mp4"]
  /\ cdn_output msg = Os.path_join key [datestamp; "annotated_video.mp4"].
Proof.
  intros Hkey Hin. apply list_elem_of_singleton in Hin. subst msg.
  cbn [gcs_input gcs_output cdn_output cdn_relative].
  assert (Hsuffix : String.prefix "/"
            (Os.path_join key [datestamp; "annotated_video.mp4"]) = true)
    by (by apply path_join_absolute).
  rewrite !path_join_cons. rewrite !(join2_absolute _ key) by done.
  split_and!; try done.
  - unfold Os.path_join at 1. cbn [foldl]. by rewrite join2_absolute.
  - unfold Os.path_join at 1. cbn [foldl]. by rewrite join2_absolute.
Qed.

Lemma absolute_key_drops_bases_witness :
  Forall (fun msg =>
            gcs_input msg = "/etc"
            /\ cdn_output msg = Os.path_join "/etc" ["2021/03/01"; "annotated_video.mp4"])
    (emitted (process Examples.example_renderer "2021/03/01"
                ("/etc", [Examples.example_event])
                Examples.example_window Examples.final_pane)).
Proof.
  apply Forall_forall. intros msg Hin.
  destruct (absolute_key_drops_bases Examples.example_renderer "2021/03/01" "/etc"
              Examples.example_event [] Examples.example_window Examples.final_pane
              msg eq_refl Hin) as (Hi & _ & _ & Hc).
  split; [exact Hi|exact Hc].
Defined.

(** With a key, a date and an upload path that do not start with "/",
    every path of the message lies under its base. *)
Theorem relative_key_keeps_bases self datestamp key v values window pane_info msg :
  String.prefix "/" key = false ->
  String.prefix "/" datestamp = false ->
  String.prefix "/" (cdn_upload_path self) = false ->
  msg ∈ emitted (process self datestamp (key, v :: values) window pane_info) ->
  String.prefix (in_base_path self) (gcs_input msg) = true
  /\ String.prefix (out_base_path self) (gcs_output msg) = true
  /\ String.prefix (cdn_upload_path self) (cdn_relative msg) = true
  /\ String.prefix (cdn_base_path self) (cdn_output msg) = true.
Proof.
  intros Hkey Hdate Hup Hin. apply list_elem_of_singleton in Hin. subst msg.
  cbn [gcs_input gcs_output cdn_output cdn_relative].
  rewrite path_join_assoc.
  rewrite path_join_flatten2.
  split_and!; apply prefix_path_join;
    repeat (apply Forall_cons_2; [done|]); apply Forall_nil_2.
Qed.

Lemma relative_key_keeps_bases_witness :
  Forall (fun msg =>
            String.prefix "gs://bucket/in" (gcs_input msg) = true
            /\ String.prefix "https://cdn.example" (cdn_output msg) = true)
    (emitted (process Examples.example_renderer "2021/03/01"
                ("session-a", [Examples.example_event])
                Examples.example_window Examples.early_pane)).
Proof.
  apply Forall_forall. intros msg Hin.
  destruct (relative_key_keeps_bases Examples.example_renderer "2021/03/01"
              "session-a" Examples.example_event [] Examples.example_window
              Examples.early_pane msg eq_refl eq_refl eq_refl Hin)
    as (Hi & _ & _ & Hc).
  split; [exact Hi|exact Hc].
Defined.

End RenderProps.
